(** * incidencies-module: the incident-report backend of [src/main.py]

    A shallow embedding of [main.py] and the properties of its submission
    pipeline, report store and listing view.

    Layout:
    - [Py], [OsPath], [Base64], [Uuid]: the Python library functions the
      program calls, modelled from their documented behaviour;
    - the data model ([Incidencia], [IncidenciaCreate], ...), the process
      state [World] and the unit-of-work [Session];
    - the endpoints, in the order of the source;
    - the properties.

    Conventions.  A Python [str] is a [string] whose characters are code
    points below 256.  A call that may raise returns [res A]; a call that
    also touches the process state has type [World -> res A * World], and
    the state it returns on [Err] is the state the exception leaves
    behind. *)

From Stdlib Require Import ZArith NArith Ascii String List Lia DecimalString.
From Stdlib Require Import SpecFloat.
From Stdlib.Strings Require Import Byte.
From stdpp Require Import base option gmap strings list.

Local Open Scope string_scope.
Local Open Scope list_scope.

(** ** Exceptions and results *)

(** The exceptions that can travel through [main.py], by cause.  The
    message of an exception is not modelled: [str(e)] is kept as the
    exception itself ([StrOf]). *)
Inductive pyexn : Type :=
| UnpackError          (* ValueError: not enough values to unpack (expected 2, got 1) *)
| IndexError           (* IndexError: list index out of range *)
| NonAsciiError        (* ValueError: string argument should contain only ASCII characters *)
| Base64LengthError    (* binascii.Error: number of data characters cannot be 1 more than a multiple of 4 *)
| Base64PaddingError   (* binascii.Error: Incorrect padding *)
| FloatError (s : string)   (* ValueError: could not convert string to float *)
| AttributeError       (* 'NoneType' object has no attribute ... *)
| ValidationError (field : string)  (* pydantic: a response field of the wrong type *)
| IntegrityError (column : string)  (* sqlalchemy.exc.IntegrityError *)
| OverflowError        (* Python int too large to convert to SQLite INTEGER *)
| ValueError (prefix : string) (cause : pyexn)   (* ValueError(f"{prefix}{str(cause)}") *)
| HTTPException (status_code : nat) (detail : http_detail)
with http_detail : Type :=
| Text (s : string)
| StrOf (e : pyexn).

Inductive res (A : Type) : Type :=
| Ok (a : A)
| Err (e : pyexn).
Arguments Ok {A} a.
Arguments Err {A} e.

Definition res_bind {A B} (r : res A) (k : A -> res B) : res B :=
  match r with
  | Ok a => k a
  | Err e => Err e
  end.

Definition is_ok {A} (r : res A) : bool :=
  match r with Ok _ => true | Err _ => false end.

(** ** Python builtins *)
Module Py.

(** [bool(s)] for a [str]. *)
Definition truthy_str (s : string) : bool :=
  match s with
  | EmptyString => false
  | String _ _ => true
  end.

(** [bool(x)] for an [Optional[str]]: [None] and the empty string are false. *)
Definition truthy (o : option string) : bool :=
  match o with
  | None => false
  | Some s => truthy_str s
  end.

(** [s.split(sep)] for a one-character separator. *)
Fixpoint split (sep : ascii) (s : string) : list string :=
  match s with
  | EmptyString => [EmptyString]
  | String c s' =>
      if Ascii.eqb c sep then EmptyString :: split sep s'
      else match split sep s' with
           | [] => [String c EmptyString]
           | p :: ps => String c p :: ps
           end
  end.

(** The cut at the first occurrence of [sep], when there is one. *)
Fixpoint cut (sep : ascii) (s : string) : option (string * string) :=
  match s with
  | EmptyString => None
  | String c s' =>
      if Ascii.eqb c sep then Some (EmptyString, s')
      else match cut sep s' with
           | Some (a, b) => Some (String c a, b)
           | None => None
           end
  end.

(** [s.split(sep, 1)]: one or two parts. *)
Definition split1 (sep : ascii) (s : string) : list string :=
  match cut sep s with
  | Some (a, b) => [a; b]
  | None => [s]
  end.

(** [a, b = l]. *)
Definition unpack2 (l : list string) : res (string * string) :=
  match l with
  | [a; b] => Ok (a, b)
  | _ => Err UnpackError
  end.

(** [l[i]]. *)
Definition index (l : list string) (i : nat) : res string :=
  match nth_error l i with
  | Some x => Ok x
  | None => Err IndexError
  end.

(** [str(n)] for an [int]. *)
Definition str_int (n : Z) : string := NilZero.string_of_int (Z.to_int n).

(** The values a JSON body can put in the [ubicacion] dict.  Of a float
    and of a nested list or dict the program observes two things only,
    its truth value and its [str()]; such a value is given by these two
    (for a float, [nonzero] is [x != 0.0] and [repr] is [repr(x)]). *)
Inductive pyval : Type :=
| PyNone
| PyBool (b : bool)
| PyInt (n : Z)
| PyFloat (nonzero : bool) (repr : string)
| PyStr (s : string)
| PyContainer (nonempty : bool) (repr : string).

(** [bool(v)]. *)
Definition truthy_val (v : pyval) : bool :=
  match v with
  | PyNone => false
  | PyBool b => b
  | PyInt n => negb (Z.eqb n 0)
  | PyFloat nz _ => nz
  | PyStr s => truthy_str s
  | PyContainer ne _ => ne
  end.

(** [str(v)]. *)
Definition str (v : pyval) : string :=
  match v with
  | PyNone => "None"
  | PyBool true => "True"
  | PyBool false => "False"
  | PyInt n => str_int n
  | PyFloat _ r => r
  | PyStr s => s
  | PyContainer _ r => r
  end.

(** *** [float(s)]

    A Python [float] is an IEEE 754 binary64 number, here a [spec_float]
    of precision 53 and maximal exponent 1024.  [float(s)] is the number
    nearest to the decimal the string denotes, ties to even; a decimal too
    large becomes an infinity and one too small a zero. *)
Definition pyfloat : Type := spec_float.

(** The binary64 nearest to [(-1)^neg * digits * 10^exp10].  For a
    negative exponent the quotient is computed with enough bits for the
    rounding to see where the remainder lies. *)
Definition round_decimal (neg : bool) (digits : N) (exp10 : Z) : pyfloat :=
  match digits with
  | N0 => S754_zero neg
  | Npos m =>
      match exp10 with
      | Zneg k =>
          let d := Z.pow 10 (Zpos k) in
          let t := Z.max 0 (54 + Zdigits2 d - Zdigits2 (Zpos m)) in
          let n := Z.shiftl (Zpos m) t in
          let q := Z.div n d in
          let r := Z.modulo n d in
          let l := if Z.eqb r 0 then loc_Exact
                   else loc_Inexact (Z.compare (2 * r) d) in
          binary_round_aux 53 1024 neg q (- t) l
      | _ =>
          match Z.pow 10 exp10 with
          | Zpos p => binary_round 53 1024 neg (m * p) 0
          | _ => S754_nan
          end
      end
  end.

Definition code (c : ascii) : N := N_of_ascii c.

Definition is_digit (c : ascii) : bool :=
  (48 <=? code c)%N && (code c <=? 57)%N.

(** The characters [float] strips from both ends: the ASCII white space
    and, among the other code points below 256, the Unicode spaces. *)
Definition is_space (c : ascii) : bool :=
  let n := code c in
  ((9 <=? n)%N && (n <=? 13)%N) || (n =? 32)%N || (n =? 133)%N || (n =? 160)%N.

Fixpoint lstrip (cs : list ascii) : list ascii :=
  match cs with
  | c :: cs' => if is_space c then lstrip cs' else cs
  | [] => []
  end.

Definition strip (cs : list ascii) : list ascii :=
  rev (lstrip (rev (lstrip cs))).

(** Underscores are dropped; each must stand between two digits. *)
Fixpoint drop_underscores (prev : option ascii) (cs : list ascii)
  : option (list ascii) :=
  match cs with
  | [] =>
      match prev with
      | Some "_"%char => None
      | _ => Some []
      end
  | c :: cs' =>
      if Ascii.eqb c "_" then
        match prev with
        | Some p => if is_digit p then drop_underscores (Some c) cs' else None
        | None => None
        end
      else
        match prev with
        | Some "_"%char =>
            if is_digit c then
              option_map (cons c) (drop_underscores (Some c) cs')
            else None
        | _ => option_map (cons c) (drop_underscores (Some c) cs')
        end
  end.

Fixpoint span_digits (cs : list ascii) : list ascii * list ascii :=
  match cs with
  | c :: cs' =>
      if is_digit c then
        let (ds, rest) := span_digits cs' in (c :: ds, rest)
      else ([], cs)
  | [] => ([], [])
  end.

Definition digits_value (ds : list ascii) : N :=
  fold_left (fun acc c => (10 * acc + (code c - 48))%N) ds 0%N.

Definition lower (c : ascii) : ascii :=
  let n := code c in
  if (65 <=? n)%N && (n <=? 90)%N then ascii_of_N (n + 32) else c.

Definition take_sign (cs : list ascii) : bool * list ascii :=
  match cs with
  | "-"%char :: cs' => (true, cs')
  | "+"%char :: cs' => (false, cs')
  | _ => (false, cs)
  end.

(** The exponent part: empty, or [e]/[E], a sign and at least one digit. *)
Definition parse_exponent (cs : list ascii) : option Z :=
  match cs with
  | [] => Some 0%Z
  | c :: cs' =>
      if Ascii.eqb (lower c) "e" then
        let (neg, cs'') := take_sign cs' in
        match span_digits cs'' with
        | ([], _) => None
        | (ds, []) =>
            let e := Z.of_N (digits_value ds) in
            Some (if neg then (- e)%Z else e)
        | (_, _ :: _) => None
        end
      else None
  end.

Definition parse_number (neg : bool) (cs : list ascii) : option pyfloat :=
  let (ip, rest) := span_digits cs in
  let (fp, rest') :=
    match rest with
    | "."%char :: r => span_digits r
    | _ => ([], rest)
    end in
  match ip ++ fp with
  | [] => None
  | ds =>
      match parse_exponent rest' with
      | Some e => Some (round_decimal neg (digits_value ds) (e - Z.of_nat (length fp)))
      | None => None
      end
  end.

Definition parse_float_body (cs : list ascii) : option pyfloat :=
  let (neg, cs') := take_sign cs in
  let word := string_of_list_ascii (map lower cs') in
  if String.eqb word "inf" || String.eqb word "infinity" then Some (S754_infinity neg)
  else if String.eqb word "nan" then Some S754_nan
  else parse_number neg cs'.

(** [float(s)]; [None] is the [ValueError]. *)
Definition float (s : string) : option pyfloat :=
  match drop_underscores None (strip (list_ascii_of_string s)) with
  | Some cs => parse_float_body cs
  | None => None
  end.

End Py.

(** ** [os.path] (posixpath) *)
Module OsPath.

Definition starts_with_slash (s : string) : bool :=
  match s with
  | String c _ => Ascii.eqb c "/"
  | EmptyString => false
  end.

Fixpoint ends_with_slash (s : string) : bool :=
  match s with
  | EmptyString => false
  | String c EmptyString => Ascii.eqb c "/"
  | String _ s' => ends_with_slash s'
  end.

(** [os.path.join(a, b)]. *)
Definition join (a b : string) : string :=
  if starts_with_slash b then b
  else if negb (Py.truthy_str a) || ends_with_slash a then a +:+ b
  else a +:+ "/" +:+ b.

(** [os.path.basename(p)]: what follows the last slash. *)
Fixpoint basename (p : string) : string :=
  match p with
  | EmptyString => EmptyString
  | String c p' =>
      if Ascii.eqb c "/" then basename p'
      else match Py.cut "/" p' with
           | Some _ => basename p'
           | None => p
           end
  end.

End OsPath.


(** ** [base64.b64decode]

    [b64decode(s)] on a [str] encodes it as ASCII and hands the bytes to
    [binascii.a2b_base64] in its lenient mode (CPython 3.11 and later):
    characters outside the alphabet are skipped, a pad sequence that
    completes a quad ends the input, and an incomplete last quad is an
    error. *)
Module Base64.

Definition byte_of (n : N) : byte :=
  match Byte.of_N n with
  | Some b => b
  | None => x00
  end.

(** [table_a2b_base64]: the value of a character of the alphabet. *)
Definition a2b (c : ascii) : option N :=
  let n := Py.code c in
  if (65 <=? n)%N && (n <=? 90)%N then Some (n - 65)%N
  else if (97 <=? n)%N && (n <=? 122)%N then Some (n - 71)%N
  else if (48 <=? n)%N && (n <=? 57)%N then Some (n + 4)%N
  else if (n =? 43)%N then Some 62%N
  else if (n =? 47)%N then Some 63%N
  else None.

(** The decoding loop; [acc] holds the output, last byte first. *)
Fixpoint a2b_loop (cs : list ascii) (quad_pos : nat) (leftchar : N)
    (pads : nat) (acc : list byte) : res (list byte) :=
  match cs with
  | [] =>
      match quad_pos with
      | 0 => Ok (rev acc)
      | 1 => Err Base64LengthError
      | _ => Err Base64PaddingError
      end
  | c :: cs' =>
      if Ascii.eqb c "=" then
        if (2 <=? quad_pos)%nat then
          if (4 <=? quad_pos + S pads)%nat then Ok (rev acc)
          else a2b_loop cs' quad_pos leftchar (S pads) acc
        else a2b_loop cs' quad_pos leftchar pads acc
      else
        match a2b c with
        | None => a2b_loop cs' quad_pos leftchar pads acc
        | Some v =>
            match quad_pos with
            | 0 => a2b_loop cs' 1 v 0 acc
            | 1 =>
                a2b_loop cs' 2 (N.land v 15) 0
                  (byte_of (N.lor (N.shiftl leftchar 2) (N.shiftr v 4)) :: acc)
            | 2 =>
                a2b_loop cs' 3 (N.land v 3) 0
                  (byte_of (N.lor (N.shiftl leftchar 4) (N.shiftr v 2)) :: acc)
            | _ =>
                a2b_loop cs' 0 0%N 0
                  (byte_of (N.lor (N.shiftl leftchar 6) v) :: acc)
            end
        end
  end.

Definition a2b_base64 (cs : list ascii) : res (list byte) :=
  a2b_loop cs 0 0%N 0 [].

Definition is_ascii (c : ascii) : bool := (Py.code c <? 128)%N.

(** [base64.b64decode(s)]. *)
Definition b64decode (s : string) : res (list byte) :=
  let cs := list_ascii_of_string s in
  if forallb is_ascii cs then a2b_base64 cs else Err NonAsciiError.

End Base64.

(** ** [uuid.uuid4] *)
Module Uuid.

(** [UUID(bytes=os.urandom(16), version=4)]: the variant and version
    bits are forced on the 128 random bits. *)
Definition of_random (r : N) : N :=
  let i0 := (r mod 2 ^ 128)%N in
  let i1 := N.ldiff i0 (N.shiftl 49152 48) in
  let i2 := N.lor i1 (N.shiftl 32768 48) in
  let i3 := N.ldiff i2 (N.shiftl 61440 64) in
  N.lor i3 (N.shiftl 4 76).

Definition hex_digit (n : N) : ascii :=
  if (n <? 10)%N then ascii_of_N (48 + n) else ascii_of_N (87 + n).

(** The [k] low hexadecimal digits of [n], most significant first. *)
Fixpoint hex (k : nat) (n : N) (acc : string) : string :=
  match k with
  | 0 => acc
  | S k' => hex k' (n / 16)%N (String (hex_digit (n mod 16)%N) acc)
  end.

(** [str(u)]: 8-4-4-4-12 hexadecimal digits. *)
Definition to_str (u : N) : string :=
  let h := hex 32 u EmptyString in
  substring 0 8 h +:+ "-" +:+ substring 8 4 h +:+ "-" +:+ substring 12 4 h
    +:+ "-" +:+ substring 16 4 h +:+ "-" +:+ substring 20 12 h.

End Uuid.

(** ** [datetime.date] *)
Record date : Type := Date { year : Z; month : Z; day : Z }.

(** [n] in decimal, zero-padded on the left to [width] digits. *)
Definition zero_pad (width : nat) (n : Z) : string :=
  let s := Py.str_int n in
  string_of_list_ascii (repeat "0"%char (width - String.length s)) +:+ s.

(** [d.strftime('%Y-%m-%d')] with the C library of Linux: the year is
    written as it is, without padding (year 999 gives "999-01-01"); month
    and day are on two digits. *)
Definition strftime_Ymd (d : date) : string :=
  Py.str_int (year d) +:+ "-" +:+ zero_pad 2 (month d) +:+ "-" +:+ zero_pad 2 (day d).

(** ** The data model *)

(** [class Incidencia(Base)]: an object of the class and a row of the table
    [incidencias].  [id_incidencia] and [status] are [None] on a fresh
    object until the INSERT fills in the column defaults. *)
Module Incidencia.
Record t : Type := mk {
  id_incidencia : option string;
  id_usuario_emisor : string;
  id_catalogo : string;
  subcategoria : string;
  asunto : string;
  descripcion : string;
  imagen : option string;
  video : option string;
  audio : option string;
  fecha_emision : option date;
  ubicacion_lat : option string;
  ubicacion_lng : option string;
  status : option string }.

Definition set_id_incidencia (v : option string) (o : t) : t :=
  mk v (id_usuario_emisor o) (id_catalogo o) (subcategoria o) (asunto o)
    (descripcion o) (imagen o) (video o) (audio o) (fecha_emision o)
    (ubicacion_lat o) (ubicacion_lng o) (status o).
Definition set_imagen (v : option string) (o : t) : t :=
  mk (id_incidencia o) (id_usuario_emisor o) (id_catalogo o) (subcategoria o)
    (asunto o) (descripcion o) v (video o) (audio o) (fecha_emision o)
    (ubicacion_lat o) (ubicacion_lng o) (status o).
Definition set_video (v : option string) (o : t) : t :=
  mk (id_incidencia o) (id_usuario_emisor o) (id_catalogo o) (subcategoria o)
    (asunto o) (descripcion o) (imagen o) v (audio o) (fecha_emision o)
    (ubicacion_lat o) (ubicacion_lng o) (status o).
Definition set_audio (v : option string) (o : t) : t :=
  mk (id_incidencia o) (id_usuario_emisor o) (id_catalogo o) (subcategoria o)
    (asunto o) (descripcion o) (imagen o) (video o) v (fecha_emision o)
    (ubicacion_lat o) (ubicacion_lng o) (status o).
Definition set_status (v : option string) (o : t) : t :=
  mk (id_incidencia o) (id_usuario_emisor o) (id_catalogo o) (subcategoria o)
    (asunto o) (descripcion o) (imagen o) (video o) (audio o) (fecha_emision o)
    (ubicacion_lat o) (ubicacion_lng o) v.

(** [Incidencia.id_incidencia == pk] *)
Definition has_id (pk : string) (o : t) : bool :=
  match id_incidencia o with
  | Some i => String.eqb i pk
  | None => false
  end.
End Incidencia.

(** A key of a JSON body: left out, [null], or a value. *)
Inductive field (A : Type) : Type :=
| Omitted
| Null
| Given (a : A).
Arguments Omitted {A}.
Arguments Null {A}.
Arguments Given {A} a.

(** The JSON body of a POST, its values already of the declared types.
    For the keys whose default is [None], a key left out and a [null] are
    the same [None]. *)
Module Body.
Record t : Type := mk {
  id_usuario_emisor : string;
  id_catalogo : string;
  subcategoria : string;
  asunto : string;
  descripcion : string;
  fecha_emision : field date;
  imagen : option string;
  video : option string;
  audio : option string;
  ubicacion : option (gmap string Py.pyval) }.
End Body.

(** [class IncidenciaCreate(BaseModel)] *)
Module IncidenciaCreate.
Record t : Type := mk {
  id_usuario_emisor : string;
  id_catalogo : string;
  subcategoria : string;
  asunto : string;
  descripcion : string;
  fecha_emision : option date;
  imagen : option string;
  video : option string;
  audio : option string;
  ubicacion : option (gmap string Py.pyval) }.

(** The model built from a body.  [default_fecha] is the default of the
    field [fecha_emision]: the value [date.today()] had when the class
    statement ran. *)
Definition parse (default_fecha : date) (b : Body.t) : t :=
  mk (Body.id_usuario_emisor b) (Body.id_catalogo b) (Body.subcategoria b)
    (Body.asunto b) (Body.descripcion b)
    match Body.fecha_emision b with
    | Omitted => Some default_fecha
    | Null => None
    | Given d => Some d
    end
    (Body.imagen b) (Body.video b) (Body.audio b) (Body.ubicacion b).
End IncidenciaCreate.

(** [class IncidenciaResponse(BaseModel)] *)
Module IncidenciaResponse.
Record t : Type := mk {
  id_incidencia : string;
  id_usuario_emisor : string;
  id_catalogo : string;
  subcategoria : string;
  asunto : string;
  descripcion : string;
  imagen : option string;
  video : option string;
  audio : option string;
  fecha_emision : string;
  ubicacion : option (gmap string Py.pyfloat);
  status : string }.
End IncidenciaResponse.

(** [class EstadoUpdate(BaseModel)] *)
Module EstadoUpdate.
Record t : Type := mk { status : string }.
End EstadoUpdate.

(** ** The process state *)

(** What the program reads and writes outside its own variables: the table
    [incidencias] of the SQLite file, the file system, the table of the
    [mimetypes] module, the random source behind [uuid4], the default
    captured by [IncidenciaCreate], and the calendar. *)
Record World : Type := mkWorld {
  incidencias : list Incidencia.t;
  files : gmap string (list byte);
  dirs : gset string;
  mime_ext : string -> option string;
  urandom : nat -> N;
  drawn : nat;
  fecha_default : date;
  today : date }.

Definition set_incidencias (v : list Incidencia.t) (w : World) : World :=
  mkWorld v (files w) (dirs w) (mime_ext w) (urandom w) (drawn w)
    (fecha_default w) (today w).
Definition set_files (v : gmap string (list byte)) (w : World) : World :=
  mkWorld (incidencias w) v (dirs w) (mime_ext w) (urandom w) (drawn w)
    (fecha_default w) (today w).
Definition set_dirs (v : gset string) (w : World) : World :=
  mkWorld (incidencias w) (files w) v (mime_ext w) (urandom w) (drawn w)
    (fecha_default w) (today w).
Definition set_drawn (v : nat) (w : World) : World :=
  mkWorld (incidencias w) (files w) (dirs w) (mime_ext w) (urandom w) v
    (fecha_default w) (today w).

(** ** The state and error monad *)

Definition M (S A : Type) : Type := S -> res A * S.

Definition ret {S A} (a : A) : M S A := fun s => (Ok a, s).

Definition raise {S A} (e : pyexn) : M S A := fun s => (Err e, s).

Definition bind {S A B} (m : M S A) (k : A -> M S B) : M S B :=
  fun s =>
    match m s with
    | (Ok a, s') => k a s'
    | (Err e, s') => (Err e, s')
    end.

(** [try: m  except Exception as e: h e] *)
Definition try_except {S A} (m : M S A) (h : pyexn -> M S A) : M S A :=
  fun s =>
    match m s with
    | (Ok a, s') => (Ok a, s')
    | (Err e, s') => h e s'
    end.

Definition lift_res {S A} (r : res A) : M S A := fun s => (r, s).

Notation "'let*' x ':=' m 'in' k" := (bind m (fun x => k))
  (at level 10, x pattern, m at level 100, k at level 200).
Notation "m ';;' k" := (bind m (fun _ => k))
  (at level 100, k at level 200, right associativity).

(** [str(uuid4())] *)
Definition uuid4 : M World string :=
  fun w => (Ok (Uuid.to_str (Uuid.of_random (urandom w (drawn w)))),
            set_drawn (S (drawn w)) w).

Definition lower_str (s : string) : string :=
  string_of_list_ascii (map Py.lower (list_ascii_of_string s)).

(** [mimetypes.guess_extension(t)]: the table is asked for the type in
    lower case. *)
Definition guess_extension (t : string) : M World (option string) :=
  fun w => (Ok (mime_ext w (lower_str t)), w).

(** [os.makedirs(d, exist_ok=True)] *)
Definition makedirs (d : string) : M World unit :=
  fun w => (Ok tt, set_dirs ({[ d ]} ∪ dirs w) w).

(** [with open(p, "wb") as f: f.write(data)] *)
Definition write_file (p : string) (data : list byte) : M World unit :=
  fun w => (Ok tt, set_files (<[ p := data ]> (files w)) w).

(** ** The SQLAlchemy session

    A session tracks the objects a request has added or loaded; [commit]
    flushes them to the table in one transaction.  An object is named by
    its position in the session. *)
Inductive obj_state : Type :=
| Pending      (* added, not yet inserted *)
| Persistent   (* in step with its row *)
| Dirty        (* loaded, then [status] assigned *)
| Deleted.     (* marked by [db.delete] *)

Record Request : Type := mkRequest {
  session : list (obj_state * Incidencia.t);
  world : World }.

Definition set_session (v : list (obj_state * Incidencia.t)) (r : Request) : Request :=
  mkRequest v (world r).
Definition set_world (v : World) (r : Request) : Request :=
  mkRequest (session r) v.

(** A call on the process state, made from inside a request. *)
Definition in_world {A} (m : M World A) : M Request A :=
  fun r => let (a, w') := m (world r) in (a, set_world w' r).

(** [db.add(o)] *)
Definition db_add (o : Incidencia.t) : M Request nat :=
  fun r => (Ok (length (session r)), set_session (session r ++ [(Pending, o)]) r).

(** The object behind a name. *)
Definition db_get (h : nat) : M Request Incidencia.t :=
  fun r =>
    match nth_error (session r) h with
    | Some (_, o) => (Ok o, r)
    | None => (Err AttributeError, r)
    end.

Fixpoint update_nth {A} (n : nat) (f : A -> A) (l : list A) : list A :=
  match l, n with
  | [], _ => []
  | x :: l', 0 => f x :: l'
  | x :: l', S n' => x :: update_nth n' f l'
  end.

(** An attribute assignment on a tracked object. *)
Definition db_assign (h : nat) (f : Incidencia.t -> Incidencia.t) : M Request unit :=
  fun r =>
    (Ok tt,
     set_session
       (update_nth h
          (fun so => (match fst so with Persistent => Dirty | s => s end, f (snd so)))
          (session r)) r).

(** [db.delete(o)] *)
Definition db_delete (h : nat) : M Request unit :=
  fun r => (Ok tt, set_session (update_nth h (fun so => (Deleted, snd so)) (session r)) r).

(** [db.query(Incidencia).filter(Incidencia.id_incidencia == pk).first()]:
    the first matching row, loaded into the session. *)
Definition db_first_by_id (pk : string) : M Request (option nat) :=
  fun r =>
    match find (Incidencia.has_id pk) (incidencias (world r)) with
    | Some o => (Ok (Some (length (session r))),
                 set_session (session r ++ [(Persistent, o)]) r)
    | None => (Ok None, r)
    end.

(** The INSERT of a pending object: the column defaults are computed, then
    the NOT NULL and PRIMARY KEY constraints decide. *)
Definition insert_row (o : Incidencia.t) : M World Incidencia.t :=
  let* pk :=
    match Incidencia.id_incidencia o with
    | Some i => ret i
    | None => uuid4
    end in
  let st :=
    match Incidencia.status o with
    | Some s => s
    | None => "pending"
    end in
  let row := Incidencia.set_status (Some st) (Incidencia.set_id_incidencia (Some pk) o) in
  match Incidencia.fecha_emision o with
  | None => raise (IntegrityError "fecha_emision")
  | Some _ =>
      fun w =>
        if existsb (Incidencia.has_id pk) (incidencias w)
        then (Err (IntegrityError "id_incidencia"), w)
        else (Ok row, set_incidencias (incidencias w ++ [row]) w)
  end.

(** [UPDATE incidencias SET status = ? WHERE id_incidencia = ?]; [status]
    is the only attribute the program assigns on a loaded object. *)
Definition update_row (o : Incidencia.t) : M World unit :=
  fun w =>
    (Ok tt,
     set_incidencias
       (map (fun row =>
               match Incidencia.id_incidencia o with
               | Some pk =>
                   if Incidencia.has_id pk row
                   then Incidencia.set_status (Incidencia.status o) row
                   else row
               | None => row
               end)
          (incidencias w)) w).

(** [DELETE FROM incidencias WHERE id_incidencia = ?] *)
Definition delete_row (o : Incidencia.t) : M World unit :=
  fun w =>
    (Ok tt,
     set_incidencias
       (List.filter (fun row =>
                  match Incidencia.id_incidencia o with
                  | Some pk => negb (Incidencia.has_id pk row)
                  | None => true
                  end)
          (incidencias w)) w).

(** The flush of the tracked objects, in the order they were registered;
    the result is the session after the flush. *)
Fixpoint flush (objs : list (obj_state * Incidencia.t))
  : M World (list (obj_state * Incidencia.t)) :=
  match objs with
  | [] => ret []
  | (Pending, o) :: rest =>
      let* row := insert_row o in
      let* rest' := flush rest in
      ret ((Persistent, row) :: rest')
  | (Persistent, o) :: rest =>
      let* rest' := flush rest in
      ret ((Persistent, o) :: rest')
  | (Dirty, o) :: rest =>
      update_row o ;;
      let* rest' := flush rest in
      ret ((Persistent, o) :: rest')
  | (Deleted, o) :: rest =>
      delete_row o ;;
      flush rest
  end.

(** [db.commit()]: flush and commit; when a statement fails the database
    undoes the transaction, so the table is as before the flush. *)
Definition db_commit : M Request unit :=
  fun r =>
    match flush (session r) (world r) with
    | (Ok objs, w') => (Ok tt, mkRequest objs w')
    | (Err e, w') => (Err e, set_world (set_incidencias (incidencias (world r)) w') r)
    end.

(** [db.rollback()]: pending objects leave the session, the others go back
    to the state of their rows. *)
Definition db_rollback : M Request unit :=
  fun r =>
    (Ok tt,
     set_session
       (omap (fun so =>
                match fst so with
                | Pending => None
                | _ =>
                    match Incidencia.id_incidencia (snd so) with
                    | Some pk =>
                        match find (Incidencia.has_id pk) (incidencias (world r)) with
                        | Some row => Some (Persistent, row)
                        | None => None
                        end
                    | None => None
                    end
                end)
          (session r)) r).

(** [db.refresh(o)]: the attributes of the object are read again from its
    row. *)
Definition db_refresh (h : nat) : M Request unit :=
  fun r =>
    match nth_error (session r) h with
    | Some (_, o) =>
        match Incidencia.id_incidencia o with
        | Some pk =>
            match find (Incidencia.has_id pk) (incidencias (world r)) with
            | Some row =>
                (Ok tt, set_session (update_nth h (fun so => (fst so, row)) (session r)) r)
            | None => (Err AttributeError, r)
            end
        | None => (Err AttributeError, r)
        end
    | None => (Err AttributeError, r)
    end.

(** [db: Session = Depends(get_db)]: the handler runs on a fresh session,
    which is closed when it returns or raises. *)
Definition with_db {A} (handler : M Request A) : M World A :=
  fun w => let (a, r) := handler (mkRequest [] w) in (a, world r).

(** ** The program *)

Definition UPLOAD_DIR : string := "./uploads".

(** [def save_base64_file(base64_data, upload_dir)].  The file system of
    the model accepts every [makedirs] and every write: the [OSError] that
    lines 123-126 can raise, after the name was drawn, and that the same
    [except] clause would wrap, has no counterpart here.  The only
    failures of the model are those of lines 115-119, which come before
    anything is drawn or written. *)
Definition save_base64_file (base64_data upload_dir : string) : M World string :=
  try_except
    (let* (header, data) := lift_res (Py.unpack2 (Py.split1 "," base64_data)) in
     let* after_colon := lift_res (Py.index (Py.split ":" header) 1) in
     let* mime_type := lift_res (Py.index (Py.split ";" after_colon) 0) in
     let* guessed := guess_extension mime_type in
     let extension := if Py.truthy guessed then default ".bin" guessed else ".bin" in
     let* file_data := lift_res (Base64.b64decode data) in
     let* name := uuid4 in
     let file_name := name +:+ extension in
     let file_path := OsPath.join upload_dir file_name in
     makedirs upload_dir ;;
     write_file file_path file_data ;;
     ret file_path)
    (fun e => raise (ValueError "Error procesando archivo: " e)).

(** [bool(d)] for an [Optional[dict]]. *)
Definition truthy_dict (o : option (gmap string Py.pyval)) : bool :=
  match o with
  | Some d => negb (Nat.eqb (size d) 0)
  | None => false
  end.

(** [d.get(k)] *)
Definition dict_get (d : option (gmap string Py.pyval)) (k : string) : Py.pyval :=
  match d with
  | Some m => default Py.PyNone (m !! k)
  | None => Py.PyNone
  end.

(** [str(v) if v else None] *)
Definition str_if (v : Py.pyval) : option string :=
  if Py.truthy_val v then Some (Py.str v) else None.

(** [if payload: o.attr = save_base64_file(payload, os.path.join(UPLOAD_DIR, sub))] *)
Definition attach (payload : option string) (sub : string)
    (set_attr : option string -> Incidencia.t -> Incidencia.t)
    (o : Incidencia.t) : M Request Incidencia.t :=
  if Py.truthy payload then
    let* path := in_world (save_base64_file (default "" payload)
                             (OsPath.join UPLOAD_DIR sub)) in
    ret (set_attr (Some path) o)
  else ret o.

(** The dict a POST answers with. *)
Record Created : Type := mkCreated {
  message : string;
  created_id : option string }.

(** [def create_incidencia(incidencia, db)] *)
Definition create_incidencia (incidencia : IncidenciaCreate.t) : M Request Created :=
  try_except
    (let ubicacion_lat :=
       if truthy_dict (IncidenciaCreate.ubicacion incidencia)
       then dict_get (IncidenciaCreate.ubicacion incidencia) "lat" else Py.PyNone in
     let ubicacion_lng :=
       if truthy_dict (IncidenciaCreate.ubicacion incidencia)
       then dict_get (IncidenciaCreate.ubicacion incidencia) "lng" else Py.PyNone in
     let nueva_incidencia :=
       Incidencia.mk None
         (IncidenciaCreate.id_usuario_emisor incidencia)
         (IncidenciaCreate.id_catalogo incidencia)
         (IncidenciaCreate.subcategoria incidencia)
         (IncidenciaCreate.asunto incidencia)
         (IncidenciaCreate.descripcion incidencia)
         None None None
         (IncidenciaCreate.fecha_emision incidencia)
         (str_if ubicacion_lat)
         (str_if ubicacion_lng)
         None in
     let* o1 := attach (IncidenciaCreate.imagen incidencia) "images"
                  Incidencia.set_imagen nueva_incidencia in
     let* o2 := attach (IncidenciaCreate.video incidencia) "videos"
                  Incidencia.set_video o1 in
     let* o3 := attach (IncidenciaCreate.audio incidencia) "audios"
                  Incidencia.set_audio o2 in
     let* h := db_add o3 in
     db_commit ;;
     db_refresh h ;;
     let* o := db_get h in
     ret (mkCreated "Incidencia creada correctamente" (Incidencia.id_incidencia o)))
    (fun e =>
       db_rollback ;;
       raise (HTTPException 400 (StrOf e))).

(** [f"{base_url}uploads/{os.path.basename(p)}" if p else None] *)
Definition media_url (base_url : string) (p : option string) : option string :=
  if Py.truthy p then Some (base_url +:+ "uploads/" +:+ OsPath.basename (default "" p))
  else None.

(** [float(s)] as a call that may raise. *)
Definition float_of (s : string) : res Py.pyfloat :=
  match Py.float s with
  | Some x => Ok x
  | None => Err (FloatError s)
  end.

(** The [ubicacion] argument of the response:
    [{"lat": float(lat), "lng": float(lng)} if lat and lng else None]. *)
Definition response_ubicacion (lat lng : option string)
  : res (option (gmap string Py.pyfloat)) :=
  if Py.truthy lat && Py.truthy lng then
    res_bind (float_of (default "" lat)) (fun x =>
    res_bind (float_of (default "" lng)) (fun y =>
    Ok (Some (<[ "lat" := x ]> (<[ "lng" := y ]> ∅)))))
  else Ok None.

(** [IncidenciaResponse(id_incidencia=inc.id_incidencia, ...)]: the
    arguments are evaluated in the order written, then the model checks
    the two [str] fields that a row could hold as [None]. *)
Definition to_response (base_url : string) (inc : Incidencia.t)
  : res IncidenciaResponse.t :=
  res_bind
    match Incidencia.fecha_emision inc with
    | Some d => Ok (strftime_Ymd d)
    | None => Err AttributeError
    end (fun fecha =>
  res_bind
    (response_ubicacion (Incidencia.ubicacion_lat inc) (Incidencia.ubicacion_lng inc))
    (fun ubic =>
  match Incidencia.id_incidencia inc, Incidencia.status inc with
  | None, _ => Err (ValidationError "id_incidencia")
  | Some _, None => Err (ValidationError "status")
  | Some i, Some st =>
      Ok (IncidenciaResponse.mk i
            (Incidencia.id_usuario_emisor inc)
            (Incidencia.id_catalogo inc)
            (Incidencia.subcategoria inc)
            (Incidencia.asunto inc)
            (Incidencia.descripcion inc)
            (media_url base_url (Incidencia.imagen inc))
            (media_url base_url (Incidencia.video inc))
            (media_url base_url (Incidencia.audio inc))
            fecha ubic st)
  end)).

(** [[f(x) for x in l]] for an [f] that may raise. *)
Fixpoint comprehension {A B} (f : A -> res B) (l : list A) : res (list B) :=
  match l with
  | [] => Ok []
  | x :: l' =>
      res_bind (f x) (fun y =>
      res_bind (comprehension f l') (fun ys => Ok (y :: ys)))
  end.


(** An integer bound to a statement must fit SQLite's 64-bit INTEGER. *)
Definition fits_int64 (n : Z) : bool :=
  ((- 2 ^ 63 <=? n) && (n <? 2 ^ 63))%Z.

(** [Incidencia.id_usuario_emisor == n] for an integer [n]: the column has
    TEXT affinity, so SQLite compares it with the integer turned into
    text. *)
Definition emisor_is (n : Z) (row : Incidencia.t) : bool :=
  String.eqb (Incidencia.id_usuario_emisor row) (Py.str_int n).

(** [query.all()] of the second [list_incidencias]. *)
Definition select_incidencias (id_usuario : option Z) (w : World)
  : res (list Incidencia.t) :=
  match id_usuario with
  | Some n =>
      if negb (Z.eqb n 0) then
        if fits_int64 n then Ok (List.filter (emisor_is n) (incidencias w))
        else Err OverflowError
      else Ok (incidencias w)
  | None => Ok (incidencias w)
  end.

(** [def list_incidencias(request, db, id_usuario=None)] *)
Definition list_incidencias (base_url : string) (id_usuario : option Z)
  : M Request (list IncidenciaResponse.t) :=
  let* rows := (fun r => (select_incidencias id_usuario (world r), r)) in
  lift_res (comprehension (to_response base_url) rows).

(** [def update_incidencia_status(id_incidencia, estado_update, db)] *)
Definition update_incidencia_status (id_incidencia : string)
    (estado_update : EstadoUpdate.t) : M Request string :=
  let* incidencia := db_first_by_id id_incidencia in
  match incidencia with
  | None => raise (HTTPException 404 (Text "Incidencia no encontrada"))
  | Some h =>
      db_assign h (Incidencia.set_status (Some (EstadoUpdate.status estado_update))) ;;
      db_commit ;;
      ret ("Estado de incidencia cambiado a " +:+ EstadoUpdate.status estado_update)
  end.

(** [def delete_incidencia(id_incidencia, db)] *)
Definition delete_incidencia (id_incidencia : string) : M Request string :=
  let* incidencia := db_first_by_id id_incidencia in
  match incidencia with
  | None => raise (HTTPException 404 (Text "Incidencia no encontrada"))
  | Some h =>
      db_delete h ;;
      db_commit ;;
      ret "Incidencia eliminada correctamente"
  end.

(** ** The operations as the routes run them *)

(** POST [/incidencias/]: the body becomes an [IncidenciaCreate], the
    handler runs on its own session. *)
Definition post_incidencia (body : Body.t) : M World Created :=
  fun w => with_db (create_incidencia (IncidenciaCreate.parse (fecha_default w) body)) w.

(** The second [list_incidencias] (line 192), the function the name is
    bound to, called on its own session.  This is a direct call of the
    function, not the route: see [get_incidencias_route]. *)
Definition get_incidencias (base_url : string) (id_usuario : option Z)
  : M World (list IncidenciaResponse.t) :=
  with_db (list_incidencias base_url id_usuario).


(** PATCH [/incidencias/{id_incidencia}/estado] *)
Definition patch_estado (id_incidencia : string) (estado_update : EstadoUpdate.t)
  : M World string :=
  with_db (update_incidencia_status id_incidencia estado_update).

(** DELETE [/incidencias/{id_incidencia}] *)
Definition delete_ (id_incidencia : string) : M World string :=
  with_db (delete_incidencia id_incidencia).

(** ** Vocabulary of the properties *)

(** The name [uuid4] hands out next. *)
Definition next_uuid (w : World) : string :=
  Uuid.to_str (Uuid.of_random (urandom w (drawn w))).

(** What [save_base64_file] reads off a payload before it touches the
    process state: the MIME type and the decoded bytes. *)
Definition payload_parts (p : string) : res (string * list byte) :=
  res_bind (Py.unpack2 (Py.split1 "," p)) (fun hd =>
  res_bind (Py.index (Py.split ":" (fst hd)) 1) (fun after_colon =>
  res_bind (Py.index (Py.split ";" after_colon) 0) (fun mime_type =>
  res_bind (Base64.b64decode (snd hd)) (fun file_data =>
  Ok (mime_type, file_data))))).

(** [mimetypes.guess_extension(t) or ".bin"] *)
Definition extension_of (w : World) (mime_type : string) : string :=
  let guessed := mime_ext w (lower_str mime_type) in
  if Py.truthy guessed then default ".bin" guessed else ".bin".

(** The state [save_base64_file] leaves after writing [data] at [path]
    under [dir]. *)
Definition after_save (dir path : string) (data : list byte) (w : World) : World :=
  set_files (<[ path := data ]> (files w))
    (set_dirs ({[ dir ]} ∪ dirs w) (set_drawn (S (drawn w)) w)).

(** The decoder raises on [p], whatever the destination and the state. *)
Definition decoder_fails (p : string) : Prop :=
  forall dir w, is_ok (fst (save_base64_file p dir w)) = false.

(** [c] occurs in [s]. *)
Fixpoint has_char (c : ascii) (s : string) : bool :=
  match s with
  | EmptyString => false
  | String a s' => Ascii.eqb a c || has_char c s'
  end.

(** A client error that leaves the table as it was. *)
Definition rejected (body : Body.t) (w : World) : Prop :=
  exists detail w',
    post_incidencia body w = (Err (HTTPException 400 detail), w')
    /\ incidencias w' = incidencias w.

(** The row a successful POST appends. *)
Definition created_row (body : Body.t) (w : World) (row : Incidencia.t) : Prop :=
  exists c w',
    post_incidencia body w = (Ok c, w')
    /\ incidencias w' = incidencias w ++ [row]
    /\ created_id c = Incidencia.id_incidencia row.

(** Every stored report has a status, and it is not the empty string. *)
Definition status_never_empty (w : World) : Prop :=
  Forall (fun row => exists s, Incidencia.status row = Some s /\ s <> "")
    (incidencias w).

(** Two reports that agree on every field but [status]. *)
Definition same_but_status (a b : Incidencia.t) : Prop :=
  Incidencia.id_incidencia a = Incidencia.id_incidencia b
  /\ Incidencia.id_usuario_emisor a = Incidencia.id_usuario_emisor b
  /\ Incidencia.id_catalogo a = Incidencia.id_catalogo b
  /\ Incidencia.subcategoria a = Incidencia.subcategoria b
  /\ Incidencia.asunto a = Incidencia.asunto b
  /\ Incidencia.descripcion a = Incidencia.descripcion b
  /\ Incidencia.imagen a = Incidencia.imagen b
  /\ Incidencia.video a = Incidencia.video b
  /\ Incidencia.audio a = Incidencia.audio b
  /\ Incidencia.fecha_emision a = Incidencia.fecha_emision b
  /\ Incidencia.ubicacion_lat a = Incidencia.ubicacion_lat b
  /\ Incidencia.ubicacion_lng a = Incidencia.ubicacion_lng b.

(** A row as the table holds it: the INSERT has given it an id, a date and
    a status. *)
Definition stored (row : Incidencia.t) : Prop :=
  is_Some (Incidencia.id_incidencia row)
  /\ is_Some (Incidencia.fecha_emision row)
  /\ is_Some (Incidencia.status row).

(** The media step of a POST for one field: the decoder runs when the
    payload is true in the Python sense, and its path is the reference. *)
Definition save_if (payload : option string) (sub : string) : M World (option string) :=
  fun w =>
    if Py.truthy payload then
      match save_base64_file (default "" payload) (OsPath.join UPLOAD_DIR sub) w with
      | (Ok path, w') => (Ok (Some path), w')
      | (Err e, w') => (Err e, w')
      end
    else (Ok None, w).

(** The three media steps, in the order of the source. *)
Definition save_media (b : Body.t)
  : M World (option string * option string * option string) :=
  let* i := save_if (Body.imagen b) "images" in
  let* v := save_if (Body.video b) "videos" in
  let* a := save_if (Body.audio b) "audios" in
  ret (i, v, a).

(** The [fecha_emision] of the model built from a body. *)
Definition fecha_of (b : Body.t) (w : World) : option date :=
  IncidenciaCreate.fecha_emision (IncidenciaCreate.parse (fecha_default w) b).

(** The stored latitude and longitude of a body. *)
Definition lat_of (b : Body.t) : option string :=
  str_if (if truthy_dict (Body.ubicacion b)
          then dict_get (Body.ubicacion b) "lat" else Py.PyNone).
Definition lng_of (b : Body.t) : option string :=
  str_if (if truthy_dict (Body.ubicacion b)
          then dict_get (Body.ubicacion b) "lng" else Py.PyNone).

(** The row an accepted body becomes, given its date, its id and its
    media references. *)
Definition new_row (b : Body.t) (fecha : option date) (pk : string)
    (media : option string * option string * option string) : Incidencia.t :=
  Incidencia.mk (Some pk)
    (Body.id_usuario_emisor b) (Body.id_catalogo b) (Body.subcategoria b)
    (Body.asunto b) (Body.descripcion b)
    (fst (fst media)) (snd (fst media)) (snd media)
    fecha (lat_of b) (lng_of b) (Some "pending").

(** The exception of the [except] clause of [create_incidencia]. *)
Definition bad_request (e : pyexn) : pyexn := HTTPException 400 (StrOf e).

(** A media field that carries no payload: left out, or the empty string. *)
Definition no_payload (o : option string) : Prop := o = None \/ o = Some "".

(** The location pair of a created report as the specification states it:
    both coordinates null or both non-null; the string coercions of the
    map's [lat] and [lng] when the body has a map, null when it has none. *)
Definition location_pair_as_stated (b : Body.t) (w : World) : Prop :=
  forall row, created_row b w row ->
    (Incidencia.ubicacion_lat row = None <-> Incidencia.ubicacion_lng row = None)
    /\ match Body.ubicacion b with
       | Some d =>
           Incidencia.ubicacion_lat row = Some (Py.str (dict_get (Some d) "lat"))
           /\ Incidencia.ubicacion_lng row = Some (Py.str (dict_get (Some d) "lng"))
       | None =>
           Incidencia.ubicacion_lat row = None
           /\ Incidencia.ubicacion_lng row = None
       end.

(** The steps of [create_incidencia] from [db.add] on. *)
Definition persist (o : Incidencia.t) : M Request Created :=
  let* h := db_add o in
  db_commit ;;
  db_refresh h ;;
  let* o' := db_get h in
  ret (mkCreated "Incidencia creada correctamente" (Incidencia.id_incidencia o')).

(** The row a status update writes for [row]. *)
Definition overwrite_status (pk s : string) (row : Incidencia.t) : Incidencia.t :=
  if Incidencia.has_id pk row then Incidencia.set_status (Some s) row else row.

(** The location of a view as the specification states it: the map of
    the parsed coordinates when both are present and parse as floats, and
    null otherwise. *)
Definition location_by_the_words (inc : Incidencia.t)
  : option (gmap string Py.pyfloat) :=
  match Incidencia.ubicacion_lat inc, Incidencia.ubicacion_lng inc with
  | Some a, Some b =>
      match Py.float a, Py.float b with
      | Some x, Some y => Some (<[ "lat" := x ]> (<[ "lng" := y ]> ∅))
      | _, _ => None
      end
  | _, _ => None
  end.

(** The view of a stored report exists and its location is the one the
    specification states. *)
Definition view_location_as_stated (base_url : string) (inc : Incidencia.t) : Prop :=
  exists v,
    to_response base_url inc = Ok v
    /\ IncidenciaResponse.ubicacion v = location_by_the_words inc.

(** No two reports of the table have the same id. *)
Definition ids_unique (w : World) : Prop :=
  List.NoDup (map Incidencia.id_incidencia (incidencias w)).

(** Every report of the table is a stored row. *)
Definition all_stored (w : World) : Prop := Forall stored (incidencias w).

(** Both coordinates of a row are present (non-null and non-empty). *)
Definition has_coordinates (row : Incidencia.t) : bool :=
  Py.truthy (Incidencia.ubicacion_lat row) && Py.truthy (Incidencia.ubicacion_lng row).

(** The coordinates of a row are readable: one of them is missing, or both
    parse as floats. *)
Definition coordinates_readable (row : Incidencia.t) : bool :=
  if has_coordinates row then
    match Py.float (default "" (Incidencia.ubicacion_lat row)),
          Py.float (default "" (Incidencia.ubicacion_lng row)) with
    | Some _, Some _ => true
    | _, _ => false
    end
  else true.

(** A view shows a row: the same id, reporter, classification, text and
    status, and the media references as addresses under [base_url]. *)
Definition shows (base_url : string) (row : Incidencia.t)
    (v : IncidenciaResponse.t) : Prop :=
  Incidencia.id_incidencia row = Some (IncidenciaResponse.id_incidencia v)
  /\ Incidencia.id_usuario_emisor row = IncidenciaResponse.id_usuario_emisor v
  /\ Incidencia.id_catalogo row = IncidenciaResponse.id_catalogo v
  /\ Incidencia.subcategoria row = IncidenciaResponse.subcategoria v
  /\ Incidencia.asunto row = IncidenciaResponse.asunto v
  /\ Incidencia.descripcion row = IncidenciaResponse.descripcion v
  /\ Incidencia.status row = Some (IncidenciaResponse.status v)
  /\ IncidenciaResponse.imagen v = media_url base_url (Incidencia.imagen row)
  /\ IncidenciaResponse.video v = media_url base_url (Incidencia.video row)
  /\ IncidenciaResponse.audio v = media_url base_url (Incidencia.audio row).

(** The causes for which [save_base64_file] refuses a payload. *)
Definition decode_cause (e : pyexn) : Prop :=
  e = UnpackError \/ e = IndexError \/ e = NonAsciiError
  \/ e = Base64LengthError \/ e = Base64PaddingError.

(** A payload the decoder refuses for its shape: it has no comma; or,
    cut at its first comma, its header has no colon or its body is one
    [base64.b64decode] raises on. *)
Definition refused_shape (p : string) : Prop :=
  has_char "," p = false
  \/ exists header body,
       p = header +:+ "," +:+ body
       /\ has_char "," header = false
       /\ (has_char ":" header = false
           \/ is_ok (Base64.b64decode body) = false).

(** ** Sample inputs *)

Definition sample_mime (t : string) : option string :=
  if String.eqb t "image/png" then Some ".png"
  else if String.eqb t "image/jpeg" then Some ".jpg"
  else if String.eqb t "video/mp4" then Some ".mp4"
  else if String.eqb t "audio/mpeg" then Some ".mp3"
  else None.

(** An empty store; the process was started on 2024-01-01 and the request
    is served on 2024-01-02. *)
Definition sample_world : World :=
  mkWorld [] ∅ ∅ sample_mime (fun n => N.of_nat n) 0 (Date 2024 1 1) (Date 2024 1 2).

Definition sample_body : Body.t :=
  Body.mk "u1" "c1" "s1" "broken light" "..." Omitted None None None None.

Definition with_media (imagen video audio : option string) (b : Body.t) : Body.t :=
  Body.mk (Body.id_usuario_emisor b) (Body.id_catalogo b) (Body.subcategoria b)
    (Body.asunto b) (Body.descripcion b) (Body.fecha_emision b)
    imagen video audio (Body.ubicacion b).

Definition with_ubicacion (u : option (gmap string Py.pyval)) (b : Body.t) : Body.t :=
  Body.mk (Body.id_usuario_emisor b) (Body.id_catalogo b) (Body.subcategoria b)
    (Body.asunto b) (Body.descripcion b) (Body.fecha_emision b)
    (Body.imagen b) (Body.video b) (Body.audio b) u.

(** A store holding one report, filed by ["u1"]. *)
Definition sample_row : Incidencia.t :=
  Incidencia.mk (Some "r1") "u1" "c1" "s1" "broken light" "..."
    None None None (Some (Date 2024 1 1)) None None (Some "pending").

Definition one_report : World := set_incidencias [sample_row] sample_world.

(** A body whose location map has a latitude only. *)
Definition body_lat_only : Body.t :=
  with_ubicacion (Some {[ "lat" := Py.PyInt 19 ]}) sample_body.

(** A body whose location map has both coordinates. *)
Definition body_lat_lng : Body.t :=
  with_ubicacion
    (Some (<[ "lat" := Py.PyInt 19 ]> {[ "lng" := Py.PyStr "-99.1" ]}))
    sample_body.

(** A body whose coordinates are strings that denote no number. *)
Definition body_not_numbers : Body.t :=
  with_ubicacion
    (Some (<[ "lat" := Py.PyStr "north" ]> {[ "lng" := Py.PyStr "west" ]}))
    sample_body.

(** A stored report with both coordinates. *)
Definition located_row : Incidencia.t :=
  Incidencia.mk (Some "r1") "u1" "c1" "s1" "broken light" "..."
    None None None (Some (Date 2024 1 1)) (Some "19.4") (Some "-99.1")
    (Some "pending").


(** * Properties *)

(** ** The library functions *)

Arguments Uuid.to_str : simpl never.
Arguments Uuid.of_random : simpl never.

Lemma has_char_app c a b :
  has_char c (a +:+ b) = has_char c a || has_char c b.
Proof.
  induction a as [|x a IH]; simpl; [reflexivity|].
  rewrite IH. now rewrite orb_assoc.
Qed.

Lemma cut_none_iff c s : Py.cut c s = None <-> has_char c s = false.
Proof.
  induction s as [|x s IH]; simpl; [tauto|].
  destruct (Ascii.eqb x c); simpl; [split; discriminate|].
  destruct (Py.cut c s) as [[a b]|]; [|tauto].
  split; [discriminate|]. intros H. apply IH in H. discriminate.
Qed.

(** The cut falls at the first separator. *)
Lemma cut_app c a b :
  has_char c a = false -> Py.cut c (a +:+ String c b) = Some (a, b).
Proof.
  induction a as [|x a IH]; simpl.
  - intros _. now rewrite Ascii.eqb_refl.
  - intros H. apply orb_false_iff in H as [Hx Ha].
    rewrite Hx, (IH Ha). reflexivity.
Qed.

Lemma split_lacks c s : has_char c s = false -> Py.split c s = [s].
Proof.
  induction s as [|x s IH]; simpl; [reflexivity|].
  intros H. apply orb_false_iff in H as [Hx Hs].
  rewrite Hx, (IH Hs). reflexivity.
Qed.

Lemma split_app c a b :
  has_char c a = false -> Py.split c (a +:+ String c b) = a :: Py.split c b.
Proof.
  induction a as [|x a IH]; simpl.
  - intros _. now rewrite Ascii.eqb_refl.
  - intros H. apply orb_false_iff in H as [Hx Ha].
    rewrite Hx, (IH Ha). reflexivity.
Qed.

Lemma append_assoc (a b c : string) : (a +:+ b) +:+ c = a +:+ (b +:+ c).
Proof.
  induction a as [|x a IH]; [reflexivity|].
  change (String x ((a +:+ b) +:+ c) = String x (a +:+ (b +:+ c))).
  now f_equal.
Qed.

(** A payload without a comma does not unpack. *)
Lemma payload_parts_no_comma p :
  has_char "," p = false -> payload_parts p = Err UnpackError.
Proof.
  intros H. apply cut_none_iff in H.
  unfold payload_parts, Py.split1. now rewrite H.
Qed.

(** [save_base64_file], case by case. *)
Lemma save_base64_file_eq p dir w :
  save_base64_file p dir w =
    match payload_parts p with
    | Ok (mime_type, data) =>
        let path := OsPath.join dir (next_uuid w +:+ extension_of w mime_type) in
        (Ok path, after_save dir path data w)
    | Err e => (Err (ValueError "Error procesando archivo: " e), w)
    end.
Proof.
  unfold save_base64_file, payload_parts, try_except, bind, lift_res, res_bind.
  destruct (Py.unpack2 (Py.split1 "," p)) as [[header data]|e]; [|reflexivity].
  cbv beta iota delta [fst snd].
  destruct (Py.index (Py.split ":" header) 1) as [a|e]; [|reflexivity].
  destruct (Py.index (Py.split ";" a) 0) as [m|e]; [|reflexivity].
  unfold guess_extension.
  destruct (Base64.b64decode data) as [bytes|e]; reflexivity.
Qed.

Lemma save_keeps_table p dir w r w' :
  save_base64_file p dir w = (r, w') -> incidencias w' = incidencias w.
Proof.
  rewrite save_base64_file_eq.
  destruct (payload_parts p) as [[m d]|e]; intros [= <- <-]; reflexivity.
Qed.

(** ** The media steps *)

Lemma attach_eq payload sub set_attr o r :
  attach payload sub set_attr o r =
    match save_if payload sub (world r) with
    | (Ok path, w') =>
        (Ok (match path with Some _ => set_attr path o | None => o end),
         set_world w' r)
    | (Err e, w') => (Err e, set_world w' r)
    end.
Proof.
  destruct r as [ss w].
  unfold attach, save_if. destruct (Py.truthy payload); [|reflexivity].
  unfold bind, in_world, ret. cbn [world].
  destruct (save_base64_file _ _ w) as [[path|e] w']; reflexivity.
Qed.

Lemma find_fresh pk (row : Incidencia.t) l :
  existsb (Incidencia.has_id pk) l = false ->
  Incidencia.has_id pk row = true ->
  find (Incidencia.has_id pk) (l ++ [row]) = Some row.
Proof.
  intros Hl Hrow. induction l as [|x l IH]; cbn [app find existsb] in *.
  - now rewrite Hrow.
  - apply orb_false_iff in Hl as [Hx Hl]. rewrite Hx. now apply IH.
Qed.

Lemma persist_eq o w :
  Incidencia.id_incidencia o = None ->
  Incidencia.status o = None ->
  let w2 := set_drawn (S (drawn w)) w in
  let row := Incidencia.set_status (Some "pending")
               (Incidencia.set_id_incidencia (Some (next_uuid w)) o) in
  persist o (mkRequest [] w) =
    match Incidencia.fecha_emision o with
    | None => (Err (IntegrityError "fecha_emision"), mkRequest [(Pending, o)] w2)
    | Some _ =>
        if existsb (Incidencia.has_id (next_uuid w)) (incidencias w)
        then (Err (IntegrityError "id_incidencia"), mkRequest [(Pending, o)] w2)
        else (Ok (mkCreated "Incidencia creada correctamente" (Some (next_uuid w))),
              mkRequest [(Persistent, row)]
                (set_incidencias (incidencias w ++ [row]) w2))
    end.
Proof.
  intros Hid Hst w2 row.
  unfold persist, bind, db_add, db_commit.
  cbn [session world set_session app length flush].
  unfold bind, insert_row. rewrite Hid, Hst. unfold bind, uuid4.
  fold (next_uuid w). fold w2. fold row.
  destruct (Incidencia.fecha_emision o) as [d|].
  2:{ reflexivity. }
  cbn [incidencias set_drawn w2].
  destruct (existsb (Incidencia.has_id (next_uuid w)) (incidencias w)) eqn:Hex.
  { reflexivity. }
  assert (Hrow : Incidencia.has_id (next_uuid w) row = true).
  { unfold Incidencia.has_id, row. cbn [Incidencia.id_incidencia Incidencia.set_status
      Incidencia.set_id_incidencia]. apply String.eqb_refl. }
  unfold ret, db_refresh, db_get.
  cbn [session world nth_error incidencias set_incidencias].
  replace (Incidencia.id_incidencia row) with (Some (next_uuid w)) by reflexivity.
  rewrite (find_fresh _ row _ Hex Hrow).
  cbn [session world nth_error set_session update_nth fst snd].
  reflexivity.
Qed.

Lemma save_media_eq b w :
  save_media b w =
    match save_if (Body.imagen b) "images" w with
    | (Err e, w1) => (Err e, w1)
    | (Ok i, w1) =>
        match save_if (Body.video b) "videos" w1 with
        | (Err e, w2) => (Err e, w2)
        | (Ok v, w2) =>
            match save_if (Body.audio b) "audios" w2 with
            | (Err e, w3) => (Err e, w3)
            | (Ok a, w3) => (Ok (i, v, a), w3)
            end
        end
    end.
Proof. reflexivity. Qed.

Lemma post_incidencia_eq b w :
  post_incidencia b w =
    match save_media b w with
    | (Err e, w1) => (Err (bad_request e), w1)
    | (Ok media, w1) =>
        let w2 := set_drawn (S (drawn w1)) w1 in
        match fecha_of b w with
        | None => (Err (bad_request (IntegrityError "fecha_emision")), w2)
        | Some d =>
            if existsb (Incidencia.has_id (next_uuid w1)) (incidencias w1)
            then (Err (bad_request (IntegrityError "id_incidencia")), w2)
            else (Ok (mkCreated "Incidencia creada correctamente" (Some (next_uuid w1))),
                  set_incidencias
                    (incidencias w1 ++ [new_row b (Some d) (next_uuid w1) media]) w2)
        end
    end.
Proof.
  rewrite save_media_eq.
  unfold post_incidencia, with_db, create_incidencia, try_except.
  unfold bind at 1. rewrite attach_eq. cbn [world].
  destruct (save_if _ "images" w) as [[i|e] w1]; [|reflexivity].
  cbv beta iota. cbn [world session set_world]. unfold bind at 1. rewrite attach_eq. cbn [world session set_world].
  destruct (save_if _ "videos" w1) as [[v|e] w2]; [|reflexivity].
  cbv beta iota. cbn [world session set_world]. unfold bind at 1. rewrite attach_eq. cbn [world session set_world].
  destruct (save_if _ "audios" w2) as [[a|e] w3]; [|reflexivity].
  cbv beta iota. cbn [world session set_world].
  match goal with
  | |- context [bind (db_add ?o) _] =>
      pose proof (persist_eq o w3) as P; set (o3 := o) in *
  end.
  assert (Hid : Incidencia.id_incidencia o3 = None) by (destruct i, v, a; reflexivity).
  assert (Hst : Incidencia.status o3 = None) by (destruct i, v, a; reflexivity).
  assert (Hfe : Incidencia.fecha_emision o3 = fecha_of b w)
    by (destruct i, v, a; reflexivity).
  assert (Hrow : Incidencia.set_status (Some "pending")
                   (Incidencia.set_id_incidencia (Some (next_uuid w3)) o3)
                 = new_row b (fecha_of b w) (next_uuid w3) (i, v, a)).
  { rewrite <- Hfe. destruct i, v, a; reflexivity. }
  specialize (P Hid Hst). cbv zeta in P. unfold persist in P.
  clearbody o3. unfold set_world. cbn [session].
  rewrite P, Hrow, Hfe. clear P.
  destruct (fecha_of b w) as [d|]; [|reflexivity].
  destruct (existsb _ (incidencias w3)); reflexivity.
Qed.

Lemma truthy_some p : p <> "" -> Py.truthy (Some p) = true.
Proof. destruct p; [congruence|reflexivity]. Qed.

Lemma save_if_frame payload sub w r w' :
  save_if payload sub w = (r, w') ->
  incidencias w' = incidencias w
  /\ mime_ext w' = mime_ext w /\ urandom w' = urandom w
  /\ fecha_default w' = fecha_default w /\ today w' = today w.
Proof.
  unfold save_if. destruct (Py.truthy payload).
  - rewrite save_base64_file_eq.
    destruct (payload_parts _) as [[m d]|e]; intros [= <- <-]; repeat split.
  - intros [= <- <-]; repeat split.
Qed.

Lemma save_if_falsy payload sub w :
  Py.truthy payload = false -> save_if payload sub w = (Ok None, w).
Proof. intros H. unfold save_if. now rewrite H. Qed.

(** A payload the decoder refuses stops the media step. *)
Lemma save_if_refused p sub w :
  p <> "" -> decoder_fails p ->
  exists e w', save_if (Some p) sub w = (Err e, w').
Proof.
  intros Hp Hf. unfold save_if. rewrite (truthy_some p Hp).
  change (default "" (Some p)) with p.
  specialize (Hf (OsPath.join UPLOAD_DIR sub) w).
  destruct (save_base64_file p _ w) as [[path|e] w']; [discriminate|].
  exists e, w'. reflexivity.
Qed.

Lemma save_media_frame b w r w' :
  save_media b w = (r, w') ->
  incidencias w' = incidencias w
  /\ mime_ext w' = mime_ext w /\ urandom w' = urandom w
  /\ fecha_default w' = fecha_default w /\ today w' = today w.
Proof.
  rewrite save_media_eq.
  destruct (save_if (Body.imagen b) "images" w) as [[i|e] w1] eqn:E1;
    apply save_if_frame in E1 as (?&?&?&?&?).
  2:{ intros [= <- <-]. repeat split; assumption. }
  destruct (save_if (Body.video b) "videos" w1) as [[v|e] w2] eqn:E2;
    apply save_if_frame in E2 as (?&?&?&?&?).
  2:{ intros [= <- <-]. repeat split; congruence. }
  destruct (save_if (Body.audio b) "audios" w2) as [[a|e] w3] eqn:E3;
    apply save_if_frame in E3 as (?&?&?&?&?);
    intros [= <- <-]; repeat split; congruence.
Qed.

Lemma save_media_refused b w p :
  Body.imagen b = Some p \/ Body.video b = Some p \/ Body.audio b = Some p ->
  p <> "" -> decoder_fails p ->
  exists e w', save_media b w = (Err e, w').
Proof.
  intros Hin Hp Hf. rewrite save_media_eq.
  destruct (save_if (Body.imagen b) "images" w) as [[i|e] w1] eqn:E1; [|eauto].
  destruct (save_if (Body.video b) "videos" w1) as [[v|e] w2] eqn:E2; [|eauto].
  destruct (save_if (Body.audio b) "audios" w2) as [[a|e] w3] eqn:E3; [|eauto].
  exfalso. destruct Hin as [H|[H|H]]; rewrite H in *.
  - destruct (save_if_refused p "images" w Hp Hf) as (e&w'&E). congruence.
  - destruct (save_if_refused p "videos" w1 Hp Hf) as (e&w'&E). congruence.
  - destruct (save_if_refused p "audios" w2 Hp Hf) as (e&w'&E). congruence.
Qed.

Lemma no_comma_refused p : has_char "," p = false -> decoder_fails p.
Proof.
  intros H dir w. rewrite save_base64_file_eq, (payload_parts_no_comma p H).
  reflexivity.
Qed.

(** What a successful POST has done. *)
Lemma created_row_inv b w row :
  created_row b w row ->
  exists media w1 d,
    save_media b w = (Ok media, w1)
    /\ fecha_of b w = Some d
    /\ existsb (Incidencia.has_id (next_uuid w1)) (incidencias w1) = false
    /\ row = new_row b (Some d) (next_uuid w1) media.
Proof.
  intros (c & w' & Hpost & Htab & Hid).
  rewrite post_incidencia_eq in Hpost.
  destruct (save_media b w) as [[media|e] w1] eqn:Hm; [|discriminate].
  apply save_media_frame in Hm as Hfr. destruct Hfr as (Ht & _).
  cbv zeta in Hpost.
  destruct (fecha_of b w) as [d|]; [|discriminate].
  destruct (existsb _ (incidencias w1)) eqn:Hex; [discriminate|].
  injection Hpost as <- <-.
  cbn [incidencias set_incidencias] in Htab. rewrite Ht in Htab.
  apply app_inj_tail in Htab as [_ <-].
  exists media, w1, d. repeat split; assumption.
Qed.

(** When a POST succeeds. *)
Lemma created_row_intro b w media w1 d :
  save_media b w = (Ok media, w1) ->
  fecha_of b w = Some d ->
  existsb (Incidencia.has_id (next_uuid w1)) (incidencias w1) = false ->
  created_row b w (new_row b (Some d) (next_uuid w1) media).
Proof.
  intros Hm Hd Hex. unfold created_row.
  rewrite post_incidencia_eq, Hm. cbv zeta. rewrite Hd, Hex.
  eexists _, _. split; [reflexivity|].
  apply save_media_frame in Hm as (Ht & _).
  cbn [incidencias set_incidencias created_id new_row Incidencia.id_incidencia].
  rewrite Ht. split; reflexivity.
Qed.

Lemma no_payload_falsy o : no_payload o -> Py.truthy o = false.
Proof. intros [-> | ->]; reflexivity. Qed.

Lemma save_media_nothing b w :
  no_payload (Body.imagen b) -> no_payload (Body.video b) ->
  no_payload (Body.audio b) ->
  save_media b w = (Ok (None, None, None), w).
Proof.
  intros Hi Hv Ha. rewrite save_media_eq.
  rewrite !save_if_falsy by now apply no_payload_falsy.
  reflexivity.
Qed.

Lemma fecha_of_not_null b w :
  Body.fecha_emision b <> Null -> exists d, fecha_of b w = Some d.
Proof.
  unfold fecha_of. cbn [IncidenciaCreate.parse IncidenciaCreate.fecha_emision].
  destruct (Body.fecha_emision b); [eauto|congruence|eauto].
Qed.

(** ** Submission *)

(** C1, as stated, fails on the empty payload: it has no comma and the
    decoder refuses it, yet the body that carries it is accepted. *)
Lemma empty_payload_is_accepted :
  Body.imagen (with_media (Some "") None None sample_body) = Some ""
  /\ has_char "," "" = false
  /\ decoder_fails ""
  /\ ~ rejected (with_media (Some "") None None sample_body) sample_world.
Proof.
  split; [reflexivity|]. split; [reflexivity|].
  split; [now apply no_comma_refused|].
  intros (detail & w' & H & _). vm_compute in H. discriminate.
Qed.

Lemma split_nonempty c s : exists x r, Py.split c s = x :: r.
Proof.
  destruct s as [|a s]; cbn [Py.split]; [eauto|].
  destruct (Ascii.eqb a c); [eauto|]. destruct (Py.split c s); eauto.
Qed.

Lemma cut_some_inv c s a b :
  Py.cut c s = Some (a, b) -> s = a +:+ String c b /\ has_char c a = false.
Proof.
  revert a. induction s as [|x s IH]; intros a; cbn [Py.cut]; [discriminate|].
  destruct (Ascii.eqb x c) eqn:Hx.
  - intros [= <- <-]. apply Ascii.eqb_eq in Hx. subst x. split; reflexivity.
  - destruct (Py.cut c s) as [[a' b']|]; [|discriminate].
    intros [= <- <-]. destruct (IH a' eq_refl) as [-> Ha].
    split; [reflexivity|]. cbn [has_char]. now rewrite Hx, Ha.
Qed.

(** The payloads the decoder refuses are those of a refused shape. *)
Lemma refused_shape_parts p :
  refused_shape p <-> exists cause, payload_parts p = Err cause.
Proof.
  split.
  - intros [Hc | (header & body & -> & Hc & Hbad)].
    + eexists. now apply payload_parts_no_comma.
    + unfold payload_parts, Py.split1.
      replace (header +:+ "," +:+ body) with (header +:+ String "," body)
        by reflexivity.
      rewrite (cut_app _ _ _ Hc). cbn [Py.unpack2 res_bind fst snd].
      destruct (Py.index (Py.split ":" header) 1) as [a|e] eqn:Ha;
        cbn [res_bind]; [|eauto].
      destruct Hbad as [Hk | Hb].
      { rewrite (split_lacks _ _ Hk) in Ha. discriminate. }
      destruct (split_nonempty ";" a) as (m & r & ->).
      cbn [Py.index nth_error res_bind].
      destruct (Base64.b64decode body); [discriminate|]. cbn [res_bind]. eauto.
  - intros [cause H]. unfold payload_parts, Py.split1 in H.
    destruct (Py.cut "," p) as [[header body]|] eqn:Hcut.
    2:{ left. now apply cut_none_iff. }
    right. apply cut_some_inv in Hcut as [-> Hc].
    exists header, body. split; [reflexivity|]. split; [exact Hc|].
    cbn [Py.unpack2 res_bind fst snd] in H.
    destruct (has_char ":" header) eqn:Hk; [right|now left].
    destruct (Py.index (Py.split ":" header) 1) as [a|e] eqn:Ha; cbn [res_bind] in H.
    + destruct (split_nonempty ";" a) as (m & r & Hm). rewrite Hm in H.
      cbn [Py.index nth_error res_bind] in H.
      destruct (Base64.b64decode body); [discriminate|reflexivity].
    + exfalso. unfold Py.index in Ha.
      destruct (Py.cut ":" header) as [[x y]|] eqn:Hx.
      * apply cut_some_inv in Hx as [-> Hx].
        rewrite (split_app _ _ _ Hx) in Ha.
        destruct (split_nonempty ":" y) as (z & r & Hz). rewrite Hz in Ha.
        discriminate.
      * apply cut_none_iff in Hx. congruence.
Qed.

Lemma refused_shape_fails p : refused_shape p -> decoder_fails p.
Proof.
  intros H dir w. apply refused_shape_parts in H as [cause H].
  rewrite save_base64_file_eq, H. reflexivity.
Qed.

(** A payload that is ill formed and not of a refused shape is accepted:
    the characters of the body outside the base64 alphabet are skipped and
    an empty file is stored. *)
Lemma lenient_payload_accepted :
  ~ rejected (with_media (Some "data:image/png;base64,!!!!") None None sample_body)
      sample_world.
Proof. intros (detail & w' & H & _). vm_compute in H. discriminate. Qed.

(** C1 (amended).  A body in which a media field holds a non-empty payload
    of a shape the decoder refuses -- the payload has no comma, or the
    header before its first comma has no colon, or the body after its
    first comma is one [base64.b64decode] raises on -- is answered with
    the client error 400, and the table of reports is afterwards what it
    was before. *)
Theorem malformed_media_rejected b w p :
  Body.imagen b = Some p \/ Body.video b = Some p \/ Body.audio b = Some p ->
  p <> "" ->
  refused_shape p ->
  rejected b w.
Proof.
  intros Hin Hp Hbad.
  assert (Hf : decoder_fails p) by now apply refused_shape_fails.
  destruct (save_media_refused b w p Hin Hp Hf) as (e & w1 & Hm).
  exists (StrOf e), w1. rewrite post_incidencia_eq, Hm.
  split; [reflexivity|].
  now apply save_media_frame in Hm as (Ht & _).
Qed.

Lemma malformed_media_rejected_witness :
  rejected (with_media None (Some "no comma here") None sample_body) sample_world
  /\ rejected (with_media (Some "image/png;base64,aGk=") None None sample_body)
       sample_world
  /\ rejected (with_media None None (Some "data:audio/mpeg;base64,aGVsbG8")
                sample_body) sample_world.
Proof.
  split; [|split].
  - apply (malformed_media_rejected _ _ "no comma here").
    + right. left. reflexivity.
    + discriminate.
    + left. reflexivity.
  - apply (malformed_media_rejected _ _ "image/png;base64,aGk=").
    + left. reflexivity.
    + discriminate.
    + right. exists "image/png;base64", "aGk=".
      split; [reflexivity|]. split; [reflexivity|]. left. reflexivity.
  - apply (malformed_media_rejected _ _ "data:audio/mpeg;base64,aGVsbG8").
    + right. right. reflexivity.
    + discriminate.
    + right. exists "data:audio/mpeg;base64", "aGVsbG8".
      split; [reflexivity|]. split; [reflexivity|]. right. reflexivity.
Defined.

(** C6.  The report created from a body without media attachments has
    null image, video and audio references and the status "pending"; and
    such a body is accepted whenever its date is not null and the id drawn
    for it is not yet in the table. *)
Theorem no_media_created b w :
  Body.imagen b = None -> Body.video b = None -> Body.audio b = None ->
  (forall row, created_row b w row ->
     Incidencia.imagen row = None /\ Incidencia.video row = None
     /\ Incidencia.audio row = None /\ Incidencia.status row = Some "pending")
  /\ (Body.fecha_emision b <> Null ->
      existsb (Incidencia.has_id (next_uuid w)) (incidencias w) = false ->
      exists row, created_row b w row).
Proof.
  intros Hi Hv Ha.
  assert (Hm : save_media b w = (Ok (None, None, None), w)).
  { apply save_media_nothing; unfold no_payload; auto. }
  split.
  - intros row Hrow.
    apply created_row_inv in Hrow as (media & w1 & d & Hm' & _ & _ & ->).
    rewrite Hm in Hm'. injection Hm' as <- <-. repeat split.
  - intros Hd Hfresh. destruct (fecha_of_not_null b w Hd) as [d Hd'].
    eexists. exact (created_row_intro b w _ w d Hm Hd' Hfresh).
Qed.

Lemma no_media_created_witness :
  exists row, created_row sample_body sample_world row
    /\ Incidencia.imagen row = None /\ Incidencia.video row = None
    /\ Incidencia.audio row = None /\ Incidencia.status row = Some "pending".
Proof.
  destruct (no_media_created sample_body sample_world eq_refl eq_refl eq_refl)
    as [Hfields Hex].
  destruct Hex as [row Hrow]; [discriminate|reflexivity|].
  exists row. split; [exact Hrow|]. exact (Hfields row Hrow).
Defined.

Lemma created_row_media b w row :
  created_row b w row ->
  (Py.truthy (Body.imagen b) = false -> Incidencia.imagen row = None)
  /\ (Py.truthy (Body.video b) = false -> Incidencia.video row = None)
  /\ (Py.truthy (Body.audio b) = false -> Incidencia.audio row = None).
Proof.
  intros Hrow.
  apply created_row_inv in Hrow as (media & w1 & d & Hm & _ & _ & ->).
  rewrite save_media_eq in Hm.
  destruct (save_if (Body.imagen b) "images" w) as [[i|?] wi] eqn:Ei; [|discriminate].
  destruct (save_if (Body.video b) "videos" wi) as [[v|?] wv] eqn:Ev; [|discriminate].
  destruct (save_if (Body.audio b) "audios" wv) as [[a|?] wa] eqn:Ea; [|discriminate].
  injection Hm as <- _. cbn [new_row Incidencia.imagen Incidencia.video
                              Incidencia.audio fst snd].
  repeat split; intros H.
  - rewrite (save_if_falsy _ _ _ H) in Ei. congruence.
  - rewrite (save_if_falsy _ _ _ H) in Ev. congruence.
  - rewrite (save_if_falsy _ _ _ H) in Ea. congruence.
Qed.

(** C10, as stated, fails when another field carries a payload the
    decoder refuses: with an empty image and a video without comma the
    submission does not succeed, it is answered with 400. *)
Lemma empty_field_beside_refused_payload :
  Body.imagen (with_media (Some "") (Some "no comma") None sample_body) = Some ""
  /\ rejected (with_media (Some "") (Some "no comma") None sample_body) sample_world
  /\ ~ (exists c w',
          post_incidencia (with_media (Some "") (Some "no comma") None sample_body)
            sample_world = (Ok c, w')).
Proof.
  split; [reflexivity|]. split.
  - eexists _, _. split; [vm_compute; reflexivity|reflexivity].
  - intros (c & w' & H). vm_compute in H. discriminate.
Qed.

(** C10 (amended).  A media field that holds the empty string is treated
    as a field left out.  The media step for it returns at once, without
    running the decoder (the object and the state are unchanged); the POST
    does exactly what it does for the body without that field, so it
    succeeds when and only when that one does; in every report the POST
    creates the reference of that field is null; and when no field carries
    a payload the body is accepted if its date is not null and the id
    drawn is new, with three null references, no file or directory
    written, and the id of the report the only name drawn. *)
Theorem empty_payload_absent b w :
  (forall sub set_attr o r, attach (Some "") sub set_attr o r = (Ok o, r))
  /\ (Body.imagen b = Some "" ->
      post_incidencia b w
      = post_incidencia (with_media None (Body.video b) (Body.audio b) b) w
      /\ forall row, created_row b w row -> Incidencia.imagen row = None)
  /\ (Body.video b = Some "" ->
      post_incidencia b w
      = post_incidencia (with_media (Body.imagen b) None (Body.audio b) b) w
      /\ forall row, created_row b w row -> Incidencia.video row = None)
  /\ (Body.audio b = Some "" ->
      post_incidencia b w
      = post_incidencia (with_media (Body.imagen b) (Body.video b) None b) w
      /\ forall row, created_row b w row -> Incidencia.audio row = None)
  /\ (no_payload (Body.imagen b) -> no_payload (Body.video b) ->
      no_payload (Body.audio b) ->
      Body.fecha_emision b <> Null ->
      existsb (Incidencia.has_id (next_uuid w)) (incidencias w) = false ->
      exists c w' row,
        post_incidencia b w = (Ok c, w')
        /\ incidencias w' = incidencias w ++ [row]
        /\ Incidencia.imagen row = None /\ Incidencia.video row = None
        /\ Incidencia.audio row = None
        /\ files w' = files w /\ dirs w' = dirs w /\ drawn w' = S (drawn w)).
Proof.
  split; [reflexivity|].
  assert (Hsame : forall b',
             Body.id_usuario_emisor b' = Body.id_usuario_emisor b ->
             Body.id_catalogo b' = Body.id_catalogo b ->
             Body.subcategoria b' = Body.subcategoria b ->
             Body.asunto b' = Body.asunto b ->
             Body.descripcion b' = Body.descripcion b ->
             Body.fecha_emision b' = Body.fecha_emision b ->
             Body.ubicacion b' = Body.ubicacion b ->
             save_media b' w = save_media b w ->
             post_incidencia b w = post_incidencia b' w).
  { intros b' H1 H2 H3 H4 H5 H6 H7 H8.
    rewrite !post_incidencia_eq, H8.
    unfold new_row, fecha_of, lat_of, lng_of.
    cbn [IncidenciaCreate.parse IncidenciaCreate.fecha_emision].
    now rewrite H1, H2, H3, H4, H5, H6, H7. }
  split; [|split; [|split]].
  - intros H. split.
    + apply Hsame; try reflexivity.
      rewrite !save_media_eq. cbn [with_media Body.imagen Body.video Body.audio].
      now rewrite H.
    + intros row Hrow. apply (created_row_media b w row Hrow). now rewrite H.
  - intros H. split.
    + apply Hsame; try reflexivity.
      rewrite !save_media_eq. cbn [with_media Body.imagen Body.video Body.audio].
      now rewrite H.
    + intros row Hrow. apply (created_row_media b w row Hrow). now rewrite H.
  - intros H. split.
    + apply Hsame; try reflexivity.
      rewrite !save_media_eq. cbn [with_media Body.imagen Body.video Body.audio].
      now rewrite H.
    + intros row Hrow. apply (created_row_media b w row Hrow). now rewrite H.
  - intros Hi Hv Ha Hd Hfresh.
    destruct (fecha_of_not_null b w Hd) as [d Hd'].
    rewrite post_incidencia_eq, (save_media_nothing b w Hi Hv Ha).
    cbv zeta. rewrite Hd', Hfresh.
    eexists _, _, _. split; [reflexivity|]. repeat split.
Qed.

Lemma empty_payload_absent_witness :
  (exists c w' row,
    post_incidencia (with_media (Some "") None (Some "") sample_body) sample_world
    = (Ok c, w')
    /\ incidencias w' = incidencias sample_world ++ [row]
    /\ Incidencia.imagen row = None /\ Incidencia.video row = None
    /\ Incidencia.audio row = None
    /\ files w' = files sample_world /\ dirs w' = dirs sample_world
    /\ drawn w' = S (drawn sample_world))
  /\ post_incidencia
       (with_media (Some "") (Some "data:video/mp4;base64,aGk=") None sample_body)
       sample_world
     = post_incidencia
         (with_media None (Some "data:video/mp4;base64,aGk=") None sample_body)
         sample_world.
Proof.
  split.
  - destruct (empty_payload_absent
                (with_media (Some "") None (Some "") sample_body) sample_world)
      as (_ & _ & _ & _ & H).
    apply H.
    + right. reflexivity.
    + left. reflexivity.
    + right. reflexivity.
    + discriminate.
    + reflexivity.
  - destruct (empty_payload_absent
                (with_media (Some "") (Some "data:video/mp4;base64,aGk=") None
                   sample_body) sample_world)
      as (_ & H & _).
    exact (proj1 (H eq_refl)).
Defined.

(** The date a body without [fecha_emision] is stored with is the default
    of the model, whatever the day of the request. *)
Lemma omitted_date_default b w row :
  Body.fecha_emision b = Omitted -> created_row b w row ->
  Incidencia.fecha_emision row = Some (fecha_default w).
Proof.
  intros Hom Hrow.
  apply created_row_inv in Hrow as (media & w1 & d & _ & Hd & _ & ->).
  unfold fecha_of in Hd.
  cbn [IncidenciaCreate.parse IncidenciaCreate.fecha_emision] in Hd.
  rewrite Hom in Hd. cbn [new_row Incidencia.fecha_emision]. congruence.
Qed.

Ltac created_by_computation :=
  unfold created_row; eexists _, _;
  split; [vm_compute; reflexivity | split; reflexivity].

(** C3 does not hold of the code.  The default of [fecha_emision] is the
    value [date.today()] had when the class was defined, so a body that
    omits the date and is processed on a later day is stored with the day
    the process started: started on 2024-01-01 and serving on 2024-01-02,
    the report is dated 2024-01-01. *)
Theorem omitted_date_on_a_later_day :
  Body.fecha_emision sample_body = Omitted
  /\ today sample_world = Date 2024 1 2
  /\ exists row,
       created_row sample_body sample_world row
       /\ Incidencia.fecha_emision row = Some (Date 2024 1 1)
       /\ Incidencia.fecha_emision row <> Some (today sample_world).
Proof.
  split; [reflexivity|]. split; [reflexivity|].
  eexists. split; [created_by_computation|].
  split; [reflexivity|discriminate].
Qed.

(** C4, as stated, fails on a map that has a latitude and no longitude:
    the latitude is stored and the longitude is null. *)
Lemma latitude_without_longitude :
  ~ location_pair_as_stated body_lat_only sample_world.
Proof.
  intros H.
  assert (Hrow : created_row body_lat_only sample_world
            (Incidencia.mk (Some "00000000-0000-4000-8000-000000000000")
               "u1" "c1" "s1" "broken light" "..." None None None
               (Some (Date 2024 1 1)) (Some "19") None (Some "pending")))
    by created_by_computation.
  destruct (H _ Hrow) as [[_ Hpair] _].
  cbn [Incidencia.ubicacion_lat Incidencia.ubicacion_lng] in Hpair.
  specialize (Hpair eq_refl). discriminate.
Qed.

Lemma lookup_truthy_dict (d : gmap string Py.pyval) k v :
  d !! k = Some v -> truthy_dict (Some d) = true.
Proof.
  intros H. unfold truthy_dict.
  destruct (Nat.eqb (size d) 0) eqn:E; [|reflexivity].
  apply Nat.eqb_eq, map_size_empty_inv in E. subst d.
  rewrite lookup_empty in H. discriminate.
Qed.

(** C4 (amended).  In the report a body creates, each coordinate is stored
    on its own: with no location map both are null; with a map, a
    coordinate whose value is true in the Python sense (a non-zero number,
    a non-empty string) is stored as the string coercion of that value,
    and a coordinate whose key is missing or null is stored as null.  Both
    are thus non-null exactly when the map gives such a value for both. *)
Theorem location_stored b w row :
  created_row b w row ->
  (Body.ubicacion b = None ->
     Incidencia.ubicacion_lat row = None /\ Incidencia.ubicacion_lng row = None)
  /\ (forall d, Body.ubicacion b = Some d ->
        (forall v, d !! "lat" = Some v -> Py.truthy_val v = true ->
                   Incidencia.ubicacion_lat row = Some (Py.str v))
        /\ (forall v, d !! "lng" = Some v -> Py.truthy_val v = true ->
                      Incidencia.ubicacion_lng row = Some (Py.str v))
        /\ (d !! "lat" = None \/ d !! "lat" = Some Py.PyNone ->
            Incidencia.ubicacion_lat row = None)
        /\ (d !! "lng" = None \/ d !! "lng" = Some Py.PyNone ->
            Incidencia.ubicacion_lng row = None)).
Proof.
  intros Hrow.
  apply created_row_inv in Hrow as (media & w1 & dt & _ & _ & _ & ->).
  cbn [new_row Incidencia.ubicacion_lat Incidencia.ubicacion_lng].
  unfold lat_of, lng_of. split.
  - intros ->. split; reflexivity.
  - intros d ->. repeat split.
    + intros v Hv Ht. rewrite (lookup_truthy_dict d _ v Hv).
      unfold dict_get, str_if. rewrite Hv. cbn [default from_option id].
      now rewrite Ht.
    + intros v Hv Ht. rewrite (lookup_truthy_dict d _ v Hv).
      unfold dict_get, str_if. rewrite Hv. cbn [default from_option id].
      now rewrite Ht.
    + intros Hv. unfold dict_get.
      destruct (truthy_dict (Some d)); [|reflexivity].
      destruct Hv as [-> | ->]; reflexivity.
    + intros Hv. unfold dict_get.
      destruct (truthy_dict (Some d)); [|reflexivity].
      destruct Hv as [-> | ->]; reflexivity.
Qed.

Lemma location_stored_witness :
  exists row,
    created_row body_lat_lng sample_world row
    /\ Incidencia.ubicacion_lat row = Some "19"
    /\ Incidencia.ubicacion_lng row = Some "-99.1".
Proof.
  eexists. split; [created_by_computation|].
  assert (Hrow : created_row body_lat_lng sample_world
            (Incidencia.mk (Some "00000000-0000-4000-8000-000000000000")
               "u1" "c1" "s1" "broken light" "..." None None None
               (Some (Date 2024 1 1)) (Some "19") (Some "-99.1") (Some "pending")))
    by created_by_computation.
  destruct (location_stored _ _ _ Hrow) as [_ H].
  destruct (H _ eq_refl) as (Hlat & Hlng & _).
  split.
  - exact (Hlat (Py.PyInt 19) eq_refl eq_refl).
  - exact (Hlng (Py.PyStr "-99.1") eq_refl eq_refl).
Defined.

(** ** Status update, deletion, listing *)

Lemma find_existsb {A} (f : A -> bool) l :
  existsb f l = match find f l with Some _ => true | None => false end.
Proof.
  induction l as [|x l IH]; cbn [existsb find]; [reflexivity|].
  destruct (f x); [reflexivity|exact IH].
Qed.

Lemma has_id_eq pk o :
  Incidencia.has_id pk o = true -> Incidencia.id_incidencia o = Some pk.
Proof.
  unfold Incidencia.has_id. destruct (Incidencia.id_incidencia o) as [i|]; [|discriminate].
  intros H. apply String.eqb_eq in H. now subst.
Qed.

(** [update_incidencia_status] on its own session, case by case. *)
Lemma patch_estado_eq pk upd w :
  patch_estado pk upd w =
    if existsb (Incidencia.has_id pk) (incidencias w) then
      (Ok ("Estado de incidencia cambiado a " +:+ EstadoUpdate.status upd),
       set_incidencias
         (map (overwrite_status pk (EstadoUpdate.status upd)) (incidencias w)) w)
    else (Err (HTTPException 404 (Text "Incidencia no encontrada")), w).
Proof.
  rewrite find_existsb.
  unfold patch_estado, with_db, update_incidencia_status, db_first_by_id.
  unfold bind at 1. cbn [world session].
  destruct (find (Incidencia.has_id pk) (incidencias w)) as [o|] eqn:Hf; [|reflexivity].
  apply find_some in Hf as [_ Hid]. apply has_id_eq in Hid.
  unfold bind, db_assign, db_commit, ret.
  cbn [world session set_session app length update_nth fst snd flush].
  unfold bind, update_row, ret.
  cbn [Incidencia.set_status Incidencia.id_incidencia Incidencia.status world].
  rewrite Hid. reflexivity.
Qed.

(** [delete_incidencia] on its own session, case by case. *)
Lemma delete_eq pk w :
  delete_ pk w =
    if existsb (Incidencia.has_id pk) (incidencias w) then
      (Ok "Incidencia eliminada correctamente",
       set_incidencias
         (List.filter (fun row => negb (Incidencia.has_id pk row)) (incidencias w)) w)
    else (Err (HTTPException 404 (Text "Incidencia no encontrada")), w).
Proof.
  rewrite find_existsb.
  unfold delete_, with_db, delete_incidencia, db_first_by_id.
  unfold bind at 1. cbn [world session].
  destruct (find (Incidencia.has_id pk) (incidencias w)) as [o|] eqn:Hf; [|reflexivity].
  apply find_some in Hf as [_ Hid]. apply has_id_eq in Hid.
  unfold bind, db_delete, db_commit, ret.
  cbn [world session set_session app length update_nth fst snd flush].
  unfold bind, delete_row, ret. cbn [world]. rewrite Hid. reflexivity.
Qed.

(** A listing reads and writes nothing. *)
Lemma get_incidencias_state base_url f w :
  snd (get_incidencias base_url f w) = w.
Proof.
  unfold get_incidencias, with_db, list_incidencias, bind, lift_res.
  cbn [world]. destruct (select_incidencias f w); reflexivity.
Qed.

(** A POST leaves the table as it was or appends the created row. *)
Lemma post_table b w :
  incidencias (snd (post_incidencia b w)) = incidencias w
  \/ exists row, created_row b w row
       /\ incidencias (snd (post_incidencia b w)) = incidencias w ++ [row].
Proof.
  destruct (post_incidencia b w) as [[c|e] w'] eqn:Hp.
  - right. rewrite post_incidencia_eq in Hp.
    destruct (save_media b w) as [[media|e] w1] eqn:Hm; [|discriminate].
    apply save_media_frame in Hm as Hfr. destruct Hfr as (Ht & _).
    cbv zeta in Hp.
    destruct (fecha_of b w) as [d|] eqn:Hd; [|discriminate].
    destruct (existsb _ (incidencias w1)) eqn:Hex; [discriminate|].
    exists (new_row b (Some d) (next_uuid w1) media).
    split; [now apply (created_row_intro b w media w1 d)|].
    injection Hp as <- <-. cbn [snd incidencias set_incidencias]. now rewrite Ht.
  - left. rewrite post_incidencia_eq in Hp.
    destruct (save_media b w) as [[media|e'] w1] eqn:Hm;
      apply save_media_frame in Hm as (Ht & _).
    + cbv zeta in Hp. destruct (fecha_of b w) as [d|].
      * destruct (existsb _ (incidencias w1)); [|discriminate].
        injection Hp as <- <-. exact Ht.
      * injection Hp as <- <-. exact Ht.
    + injection Hp as <- <-. exact Ht.
Qed.

Lemma created_row_pending b w row :
  created_row b w row -> Incidencia.status row = Some "pending".
Proof.
  intros H. now apply created_row_inv in H as (media & w1 & d & _ & _ & _ & ->).
Qed.

(** C9, as stated, fails on a status update that supplies the empty
    string: the report is left with an empty status. *)
Lemma empty_status_is_stored :
  status_never_empty one_report
  /\ ~ status_never_empty (snd (patch_estado "r1" (EstadoUpdate.mk "") one_report)).
Proof.
  split.
  - repeat constructor. exists "pending". split; [reflexivity|discriminate].
  - intros H. apply Forall_inv in H. destruct H as (s & Hs & Hne).
    vm_compute in Hs. injection Hs as <-. now apply Hne.
Qed.

(** C9 (amended).  A store in which no report has a null or empty status
    stays so under every POST, listing and deletion; the report a POST
    creates has the status "pending".  A status update stores the string
    it is given as it is: it keeps the store so exactly when the new
    status is not the empty string or no report has the given id (the
    update then answers 404 and changes nothing). *)
Theorem status_stays_nonempty w :
  status_never_empty w ->
  (forall b, status_never_empty (snd (post_incidencia b w)))
  /\ (forall b row, created_row b w row -> Incidencia.status row = Some "pending")
  /\ (forall base_url f, status_never_empty (snd (get_incidencias base_url f w)))
  /\ (forall pk, status_never_empty (snd (delete_ pk w)))
  /\ (forall pk upd,
        status_never_empty (snd (patch_estado pk upd w))
        <-> EstadoUpdate.status upd <> ""
            \/ existsb (Incidencia.has_id pk) (incidencias w) = false).
Proof.
  intros Hw. split; [|split; [|split; [|split]]].
  - intros b. unfold status_never_empty.
    destruct (post_table b w) as [-> | (row & Hrow & ->)]; [exact Hw|].
    apply Forall_app. split; [exact Hw|].
    constructor; [|constructor].
    exists "pending". split; [now apply (created_row_pending b w)|discriminate].
  - intros b row. apply created_row_pending.
  - intros base_url f. now rewrite get_incidencias_state.
  - intros pk. rewrite delete_eq.
    destruct (existsb _ (incidencias w)); [|exact Hw].
    unfold status_never_empty. cbn [snd incidencias set_incidencias].
    apply List.Forall_forall. intros row Hin.
    apply List.filter_In in Hin as [Hin _].
    unfold status_never_empty in Hw. rewrite List.Forall_forall in Hw. now apply Hw.
  - intros pk upd. rewrite patch_estado_eq.
    destruct (existsb (Incidencia.has_id pk) (incidencias w)) eqn:Hex.
    2:{ split; [now right|intros _; exact Hw]. }
    unfold status_never_empty. cbn [snd incidencias set_incidencias]. split.
    + intros Hall. left. intros Hempty.
      apply existsb_exists in Hex as (row & Hin & Hrow).
      rewrite List.Forall_forall in Hall.
      destruct (Hall (overwrite_status pk (EstadoUpdate.status upd) row))
        as (s & Hs & Hne).
      { now apply List.in_map. }
      unfold overwrite_status in Hs. rewrite Hrow in Hs.
      cbn [Incidencia.set_status Incidencia.status] in Hs.
      injection Hs as <-. now apply Hne.
    + intros [Hne | Hno]; [|discriminate].
      apply List.Forall_map. unfold status_never_empty in Hw.
      eapply List.Forall_impl; [|exact Hw].
      intros row (s & Hs & Hs'). unfold overwrite_status.
      destruct (Incidencia.has_id pk row).
      * exists (EstadoUpdate.status upd). split; [reflexivity|exact Hne].
      * exists s. now split.
Qed.

Lemma status_stays_nonempty_witness :
  status_never_empty (snd (patch_estado "r1" (EstadoUpdate.mk "resolved") one_report))
  /\ status_never_empty (snd (patch_estado "r2" (EstadoUpdate.mk "") one_report)).
Proof.
  assert (H0 : status_never_empty one_report).
  { repeat constructor. exists "pending". split; [reflexivity|discriminate]. }
  destruct (status_stays_nonempty one_report H0) as (_ & _ & _ & _ & H).
  split.
  - apply H. left. discriminate.
  - apply H. right. reflexivity.
Defined.

(** C5.  When some report has the given id, the status update succeeds and
    the table afterwards holds, position by position, the same reports:
    the report with that id has the new status and all its other fields
    as before, every other report is unchanged, and nothing outside the
    table changes.  When no report has the id, the answer is the
    not-found error 404 and the state is what it was. *)
Theorem status_update_frame pk upd w :
  (existsb (Incidencia.has_id pk) (incidencias w) = true ->
   exists msg w',
     patch_estado pk upd w = (Ok msg, w')
     /\ Forall2
          (fun old new =>
             same_but_status old new
             /\ (Incidencia.has_id pk old = true ->
                 Incidencia.status new = Some (EstadoUpdate.status upd))
             /\ (Incidencia.has_id pk old = false -> new = old))
          (incidencias w) (incidencias w')
     /\ files w' = files w /\ dirs w' = dirs w /\ drawn w' = drawn w)
  /\ (existsb (Incidencia.has_id pk) (incidencias w) = false ->
      patch_estado pk upd w
      = (Err (HTTPException 404 (Text "Incidencia no encontrada")), w)).
Proof.
  rewrite patch_estado_eq. split; intros ->; [|reflexivity].
  eexists _, _. split; [reflexivity|].
  cbn [incidencias files dirs drawn set_incidencias]. repeat split.
  induction (incidencias w) as [|row l IH]; cbn [map]; constructor; [|exact IH].
  unfold overwrite_status.
  destruct (Incidencia.has_id pk row); repeat split; congruence.
Qed.

Lemma status_update_frame_witness :
  (exists msg w',
     patch_estado "r1" (EstadoUpdate.mk "resolved") one_report = (Ok msg, w')
     /\ Forall2
          (fun old new =>
             same_but_status old new
             /\ (Incidencia.has_id "r1" old = true ->
                 Incidencia.status new = Some "resolved")
             /\ (Incidencia.has_id "r1" old = false -> new = old))
          (incidencias one_report) (incidencias w')
     /\ files w' = files one_report /\ dirs w' = dirs one_report
     /\ drawn w' = drawn one_report)
  /\ patch_estado "r2" (EstadoUpdate.mk "resolved") one_report
     = (Err (HTTPException 404 (Text "Incidencia no encontrada")), one_report).
Proof.
  split.
  - apply (status_update_frame "r1" (EstadoUpdate.mk "resolved") one_report).
    reflexivity.
  - apply (status_update_frame "r2" (EstadoUpdate.mk "resolved") one_report).
    reflexivity.
Defined.

(** Without a filter every report is selected. *)
Lemma select_no_filter w : select_incidencias None w = Ok (incidencias w).
Proof. reflexivity. Qed.


(** C2 does not hold of the code.  The filter is applied only when it is
    true in the Python sense, so the filter value 0 is taken for no filter:
    on a store whose only report was filed by "u1", listing with the
    filter 0 returns that report, as listing without a filter does on
    every store. *)
Theorem filter_zero_lists_all :
  emisor_is 0 sample_row = false
  /\ (forall base_url w,
        get_incidencias base_url (Some 0%Z) w = get_incidencias base_url None w)
  /\ exists v,
       fst (get_incidencias "http://host/" (Some 0%Z) one_report) = Ok [v]
       /\ IncidenciaResponse.id_incidencia v = "r1"
       /\ IncidenciaResponse.id_usuario_emisor v = "u1".
Proof.
  split; [reflexivity|]. split; [reflexivity|].
  eexists. split; [vm_compute; reflexivity|]. split; reflexivity.
Qed.

(** C7, as stated, fails on coordinates that are present and denote no
    number: a body can store them, and the view of the report is then not
    built at all, so the listing raises instead of showing a null
    location. *)
Lemma unparsable_coordinates_raise :
  exists row,
    created_row body_not_numbers sample_world row
    /\ stored row
    /\ to_response "http://host/" row = Err (FloatError "north")
    /\ ~ view_location_as_stated "http://host/" row
    /\ fst ((post_incidencia body_not_numbers ;;
             get_incidencias "http://host/" None) sample_world)
       = Err (FloatError "north").
Proof.
  eexists. split; [created_by_computation|].
  split; [repeat split; eexists; reflexivity|].
  split; [vm_compute; reflexivity|].
  split; [|vm_compute; reflexivity].
  intros (v & Hv & _). vm_compute in Hv. discriminate.
Qed.

Lemma truthy_true_inv o : Py.truthy o = true -> exists s, o = Some s /\ s <> "".
Proof.
  destruct o as [[|c s]|]; try discriminate.
  intros _. eexists. split; [reflexivity|discriminate].
Qed.

(** C7 (amended).  For a stored report, the view has a null location when
    a stored coordinate is null or empty; it has the map of the two parsed
    floats when both coordinates are present and both parse; and when both
    are present and one of them does not parse as a float the view is not
    built: the conversion raises. *)
Theorem view_location base_url inc :
  stored inc ->
  (Py.truthy (Incidencia.ubicacion_lat inc)
     && Py.truthy (Incidencia.ubicacion_lng inc) = false ->
   exists v, to_response base_url inc = Ok v
             /\ IncidenciaResponse.ubicacion v = None)
  /\ (forall a b x y,
        Incidencia.ubicacion_lat inc = Some a -> a <> "" ->
        Incidencia.ubicacion_lng inc = Some b -> b <> "" ->
        Py.float a = Some x -> Py.float b = Some y ->
        exists v, to_response base_url inc = Ok v
                  /\ IncidenciaResponse.ubicacion v
                     = Some (<[ "lat" := x ]> (<[ "lng" := y ]> ∅)))
  /\ (forall a b,
        Incidencia.ubicacion_lat inc = Some a -> a <> "" ->
        Incidencia.ubicacion_lng inc = Some b -> b <> "" ->
        Py.float a = None \/ Py.float b = None ->
        exists s, to_response base_url inc = Err (FloatError s)).
Proof.
  intros ([i Hi] & [d Hd] & [st Hst]).
  unfold to_response, response_ubicacion. rewrite Hi, Hd, Hst.
  cbn [res_bind]. repeat split.
  - intros ->. cbn [res_bind]. eexists. split; reflexivity.
  - intros a b x y -> Ha -> Hb Hx Hy.
    rewrite !truthy_some by assumption. cbn [andb].
    change (default "" (Some a)) with a. change (default "" (Some b)) with b.
    unfold float_of. rewrite Hx, Hy. cbn [res_bind].
    eexists. split; reflexivity.
  - intros a b -> Ha -> Hb Hbad.
    rewrite !truthy_some by assumption. cbn [andb].
    change (default "" (Some a)) with a. change (default "" (Some b)) with b.
    unfold float_of.
    destruct (Py.float a) as [x|]; [|eexists; reflexivity].
    destruct (Py.float b) as [y|]; [|eexists; reflexivity].
    destruct Hbad; discriminate.
Qed.

Lemma view_location_witness :
  exists v,
    to_response "http://host/" located_row = Ok v
    /\ IncidenciaResponse.ubicacion v
       = Some (<[ "lat" := S754_finite false 5460614548186726 (-48) ]>
                 (<[ "lng" := S754_finite true 6973542548006502 (-46) ]> ∅)).
Proof.
  assert (Hs : stored located_row) by (repeat split; eexists; reflexivity).
  destruct (view_location "http://host/" located_row Hs) as (_ & H & _).
  apply (H "19.4" "-99.1"); try reflexivity; discriminate.
Defined.

(** ** The media decoder *)

Lemma hex_digit_not_slash n : Ascii.eqb (Uuid.hex_digit (n mod 16)%N) "/" = false.
Proof.
  pose proof (N.mod_upper_bound n 16 ltac:(discriminate)) as Hlt.
  remember (n mod 16)%N as m eqn:E. clear E.
  assert (Hm : (m = 0 \/ m = 1 \/ m = 2 \/ m = 3 \/ m = 4 \/ m = 5 \/ m = 6
                \/ m = 7 \/ m = 8 \/ m = 9 \/ m = 10 \/ m = 11 \/ m = 12
                \/ m = 13 \/ m = 14 \/ m = 15)%N) by lia.
  repeat (destruct Hm as [-> | Hm]; [reflexivity|]). now subst.
Qed.

Lemma hex_head k n acc :
  exists c rest, Uuid.hex (S k) n acc = String c rest /\ Ascii.eqb c "/" = false.
Proof.
  revert n acc. induction k as [|k IH]; intros n acc.
  - cbn [Uuid.hex]. eexists _, _. split; [reflexivity|apply hex_digit_not_slash].
  - change (Uuid.hex (S (S k)) n acc)
      with (Uuid.hex (S k) (n / 16)%N (String (Uuid.hex_digit (n mod 16)%N) acc)).
    apply IH.
Qed.

Lemma append_cons c x y : String c x +:+ y = String c (x +:+ y).
Proof. reflexivity. Qed.

(** The name of a written file never starts with a slash: it starts with
    a hexadecimal digit of the uuid. *)
Lemma file_name_no_slash u e : OsPath.starts_with_slash (Uuid.to_str u +:+ e) = false.
Proof.
  unfold Uuid.to_str.
  destruct (hex_head 31 u EmptyString) as (c & rest & -> & Hc).
  cbn [substring]. rewrite !append_cons. exact Hc.
Qed.

Lemma join_under dir name :
  Py.truthy_str dir = true -> OsPath.ends_with_slash dir = false ->
  OsPath.starts_with_slash name = false ->
  OsPath.join dir name = dir +:+ "/" +:+ name.
Proof. intros H1 H2 H3. unfold OsPath.join. now rewrite H1, H2, H3. Qed.

(** The parts of a payload of the shape [data:<mime>;base64,<body>]. *)
Lemma payload_parts_data_uri mime body data :
  has_char "," mime = false -> has_char ":" mime = false ->
  has_char ";" mime = false ->
  Base64.b64decode body = Ok data ->
  Py.split1 "," ("data:" +:+ mime +:+ ";base64," +:+ body)
    = ["data:" +:+ mime +:+ ";base64"; body]
  /\ payload_parts ("data:" +:+ mime +:+ ";base64," +:+ body) = Ok (mime, data).
Proof.
  intros Hc Hk Hs Hb.
  assert (Hcut : Py.cut "," ("data:" +:+ mime +:+ ";base64," +:+ body)
                 = Some ("data:" +:+ mime +:+ ";base64", body)).
  { replace ("data:" +:+ mime +:+ ";base64," +:+ body)
      with (("data:" +:+ mime +:+ ";base64") +:+ String "," body).
    - apply cut_app. rewrite !has_char_app, Hc. reflexivity.
    - rewrite !append_assoc. reflexivity. }
  unfold payload_parts, Py.split1. rewrite Hcut. split; [reflexivity|].
  cbn [Py.unpack2 res_bind fst snd].
  replace ("data:" +:+ mime +:+ ";base64")
    with ("data" +:+ String ":" (mime +:+ ";base64")) by reflexivity.
  rewrite split_app by reflexivity.
  rewrite (split_lacks ":" (mime +:+ ";base64"))
    by (rewrite has_char_app, Hk; reflexivity).
  cbn [Py.index nth_error res_bind].
  replace (mime +:+ ";base64") with (mime +:+ String ";" "base64") by reflexivity.
  rewrite split_app by assumption.
  cbn [Py.index nth_error res_bind]. rewrite Hb. reflexivity.
Qed.

(** C8.  On a payload [data:<mime>;base64,<body>] whose body decodes, the
    decoder cuts header and body at the first comma, takes the extension
    the MIME table gives for the type and ".bin" when it gives none, writes
    the decoded bytes to a file of the destination directory and returns
    the path of that file; a POST hands it the directory of the category,
    so the image reference of the created report is a path under
    "./uploads/images" and the file there holds the decoded bytes. *)
Theorem decoder_stores_payload mime body data dir w :
  has_char "," mime = false -> has_char ":" mime = false ->
  has_char ";" mime = false ->
  Base64.b64decode body = Ok data ->
  let p := "data:" +:+ mime +:+ ";base64," +:+ body in
  let name := next_uuid w +:+ extension_of w mime in
  Py.split1 "," p = ["data:" +:+ mime +:+ ";base64"; body]
  /\ match mime_ext w (lower_str mime) with
     | Some e => e <> "" -> extension_of w mime = e
     | None => extension_of w mime = ".bin"
     end
  /\ (exists w',
        save_base64_file p dir w = (Ok (OsPath.join dir name), w')
        /\ files w' !! OsPath.join dir name = Some data
        /\ dir ∈ dirs w'
        /\ (Py.truthy_str dir = true -> OsPath.ends_with_slash dir = false ->
            OsPath.join dir name = dir +:+ "/" +:+ name))
  /\ (forall b row,
        Body.imagen b = Some p -> no_payload (Body.video b) ->
        no_payload (Body.audio b) -> created_row b w row ->
        Incidencia.imagen row = Some ("./uploads/images/" +:+ name)
        /\ exists c w',
             post_incidencia b w = (Ok c, w')
             /\ files w' !! ("./uploads/images/" +:+ name) = Some data).
Proof.
  intros Hc Hk Hs Hb p name.
  destruct (payload_parts_data_uri mime body data Hc Hk Hs Hb) as [Hsplit Hparts].
  fold p in Hsplit, Hparts.
  assert (Hname : OsPath.starts_with_slash name = false)
    by apply file_name_no_slash.
  assert (Hsave : forall d,
            save_base64_file p d w
            = (Ok (OsPath.join d name), after_save d (OsPath.join d name) data w)).
  { intros d. rewrite save_base64_file_eq, Hparts. reflexivity. }
  split; [exact Hsplit|]. split.
  { unfold extension_of. destruct (mime_ext w (lower_str mime)) as [e|]; [|reflexivity].
    intros He. now rewrite (truthy_some e He). }
  split.
  { eexists. split; [apply Hsave|].
    cbn [after_save files dirs set_files set_dirs set_drawn].
    split; [apply lookup_insert_eq|].
    split; [apply elem_of_union; left; now apply elem_of_singleton|].
    intros H1 H2. now apply join_under. }
  intros b row Hi Hv Ha Hrow.
  assert (Hjoin : OsPath.join (OsPath.join UPLOAD_DIR "images") name
                  = "./uploads/images/" +:+ name).
  { rewrite join_under; [reflexivity..|exact Hname]. }
  assert (Hm : save_media b w
               = (Ok (Some ("./uploads/images/" +:+ name), None, None),
                  after_save (OsPath.join UPLOAD_DIR "images")
                    ("./uploads/images/" +:+ name) data w)).
  { rewrite save_media_eq. unfold save_if at 1. rewrite Hi.
    assert (Hp : p <> "") by discriminate.
    rewrite (truthy_some p Hp). change (default "" (Some p)) with p.
    rewrite Hsave, Hjoin.
    rewrite !save_if_falsy by now apply no_payload_falsy.
    reflexivity. }
  apply created_row_inv in Hrow as Hinv.
  destruct Hinv as (media & w1 & d & Hm' & Hd & Hex & ->).
  rewrite Hm in Hm'. injection Hm' as <- <-.
  split; [reflexivity|].
  destruct Hrow as (c & w' & Hpost & _). exists c, w'. split; [exact Hpost|].
  rewrite post_incidencia_eq, Hm in Hpost. cbv zeta in Hpost.
  rewrite Hd, Hex in Hpost. injection Hpost as _ <-.
  cbn [after_save files set_files set_dirs set_drawn set_incidencias].
  apply lookup_insert_eq.
Qed.

Lemma decoder_stores_payload_witness :
  exists w',
    save_base64_file "data:image/png;base64,aGk=" "./uploads/images" sample_world
    = (Ok "./uploads/images/00000000-0000-4000-8000-000000000000.png", w')
    /\ files w' !! "./uploads/images/00000000-0000-4000-8000-000000000000.png"
       = Some [x68; x69].
Proof.
  destruct (decoder_stores_payload "image/png" "aGk=" [x68; x69]
              "./uploads/images" sample_world eq_refl eq_refl eq_refl eq_refl)
    as (_ & _ & (w' & Hsave & Hfile & _) & _).
  exists w'. split; [exact Hsave|exact Hfile].
Defined.

(** * Further properties *)

(** ** Creation *)

(** X1.  Whatever the body, a POST either appends one report, whose id it
    returns and which no earlier report had, or fails with the client
    error 400 and leaves the table as it was; the reports already stored
    are never changed. *)
Theorem post_outcome b w :
  match post_incidencia b w with
  | (Ok c, w') =>
      exists pk row,
        created_id c = Some pk
        /\ Incidencia.id_incidencia row = Some pk
        /\ existsb (Incidencia.has_id pk) (incidencias w) = false
        /\ incidencias w' = incidencias w ++ [row]
  | (Err e, w') =>
      (exists cause, e = HTTPException 400 (StrOf cause))
      /\ incidencias w' = incidencias w
  end.
Proof.
  rewrite post_incidencia_eq.
  destruct (save_media b w) as [[media|e] w1] eqn:Hm;
    apply save_media_frame in Hm as (Ht & _).
  2:{ split; [eexists; reflexivity|exact Ht]. }
  cbv zeta. destruct (fecha_of b w) as [d|].
  2:{ split; [eexists; reflexivity|exact Ht]. }
  destruct (existsb _ (incidencias w1)) eqn:Hex.
  { split; [eexists; reflexivity|exact Ht]. }
  exists (next_uuid w1), (new_row b (Some d) (next_uuid w1) media).
  split; [reflexivity|]. split; [reflexivity|].
  cbn [incidencias set_incidencias]. rewrite <- Ht. split; [exact Hex|reflexivity].
Qed.

(** X2.  A body whose [fecha_emision] is an explicit null is always
    rejected: the model accepts the null, the column does not. *)
Theorem null_date_rejected b w :
  Body.fecha_emision b = Null -> rejected b w.
Proof.
  intros Hn. unfold rejected. rewrite post_incidencia_eq.
  destruct (save_media b w) as [[media|e] w1] eqn:Hm;
    apply save_media_frame in Hm as (Ht & _).
  2:{ eexists _, _. split; [reflexivity|exact Ht]. }
  unfold fecha_of. cbn [IncidenciaCreate.parse IncidenciaCreate.fecha_emision].
  rewrite Hn. cbv zeta. eexists _, _. split; [reflexivity|exact Ht].
Qed.

Lemma null_date_rejected_witness :
  rejected
    (Body.mk "u1" "c1" "s1" "broken light" "..." Null None None None None)
    sample_world.
Proof. apply null_date_rejected. reflexivity. Defined.

Lemma decoder_fails_parts p :
  decoder_fails p -> exists cause, payload_parts p = Err cause.
Proof.
  intros H. specialize (H EmptyString sample_world).
  rewrite save_base64_file_eq in H.
  destruct (payload_parts p) as [[m d]|cause]; [discriminate|eauto].
Qed.

Lemma save_data_uri mime body data dir w :
  has_char "," mime = false -> has_char ":" mime = false ->
  has_char ";" mime = false ->
  Base64.b64decode body = Ok data ->
  save_base64_file ("data:" +:+ mime +:+ ";base64," +:+ body) dir w
  = (Ok (OsPath.join dir (next_uuid w +:+ extension_of w mime)),
     after_save dir (OsPath.join dir (next_uuid w +:+ extension_of w mime)) data w).
Proof.
  intros Hc Hk Hs Hb.
  destruct (payload_parts_data_uri mime body data Hc Hk Hs Hb) as [_ Hparts].
  rewrite save_base64_file_eq, Hparts. reflexivity.
Qed.

Lemma join_category sub name :
  OsPath.starts_with_slash name = false ->
  OsPath.starts_with_slash sub = false -> Py.truthy_str sub = true ->
  OsPath.ends_with_slash (UPLOAD_DIR +:+ "/" +:+ sub) = false ->
  OsPath.join (OsPath.join UPLOAD_DIR sub) name
  = UPLOAD_DIR +:+ "/" +:+ sub +:+ "/" +:+ name.
Proof.
  intros Hn Hs Ht He.
  rewrite (join_under UPLOAD_DIR sub) by (reflexivity || assumption).
  rewrite join_under; [now rewrite !append_assoc| |assumption|assumption].
  reflexivity.
Qed.

Lemma save_if_some p sub w :
  p <> "" ->
  save_if (Some p) sub w =
    match save_base64_file p (OsPath.join UPLOAD_DIR sub) w with
    | (Ok path, w') => (Ok (Some path), w')
    | (Err e, w') => (Err e, w')
    end.
Proof. intros Hp. unfold save_if. now rewrite (truthy_some p Hp). Qed.

(** X3.  Media files are not rolled back.  When the image of a body is
    well formed and its video is a non-empty payload the decoder refuses,
    the POST fails with 400 and the table is unchanged, but the image file
    has been written and stays on disk. *)
Theorem image_survives_rejection mime body data video b w :
  has_char "," mime = false -> has_char ":" mime = false ->
  has_char ";" mime = false ->
  Base64.b64decode body = Ok data ->
  Body.imagen b = Some ("data:" +:+ mime +:+ ";base64," +:+ body) ->
  Body.video b = Some video -> video <> "" -> decoder_fails video ->
  exists detail w',
    post_incidencia b w = (Err (HTTPException 400 detail), w')
    /\ incidencias w' = incidencias w
    /\ files w' !! ("./uploads/images/" +:+ next_uuid w +:+ extension_of w mime)
       = Some data
    /\ drawn w' = S (drawn w).
Proof.
  intros Hc Hk Hs Hb Hi Hv Hne Hf.
  destruct (decoder_fails_parts video Hf) as [cause Hcause].
  rewrite post_incidencia_eq, save_media_eq.
  rewrite Hi, Hv, save_if_some by discriminate.
  rewrite (save_data_uri mime body data _ w Hc Hk Hs Hb).
  rewrite (join_category "images") by (apply file_name_no_slash || reflexivity).
  cbv beta iota. rewrite (save_if_some video) by assumption.
  rewrite save_base64_file_eq, Hcause.
  eexists _, _. split; [reflexivity|].
  cbn [after_save incidencias files drawn set_files set_dirs set_drawn].
  split; [reflexivity|]. split; [|reflexivity].
  apply lookup_insert_eq.
Qed.

Lemma image_survives_rejection_witness :
  exists detail w',
    post_incidencia
      (with_media (Some "data:image/png;base64,aGk=") (Some "no comma") None
         sample_body) sample_world
    = (Err (HTTPException 400 detail), w')
    /\ incidencias w' = incidencias sample_world
    /\ files w' !! "./uploads/images/00000000-0000-4000-8000-000000000000.png"
       = Some [x68; x69]
    /\ drawn w' = 1.
Proof.
  apply (image_survives_rejection "image/png" "aGk=" [x68; x69] "no comma"
           _ sample_world); try reflexivity.
  - discriminate.
  - apply no_comma_refused. reflexivity.
Defined.

(** ** The decoder *)

Lemma a2b_loop_cause cs q l pads acc e :
  Base64.a2b_loop cs q l pads acc = Err e ->
  e = Base64LengthError \/ e = Base64PaddingError.
Proof.
  revert q l pads acc. induction cs as [|c cs IH]; intros q l pads acc.
  - cbn [Base64.a2b_loop]. destruct q as [|[|q]]; intros [= <-]; auto.
  - cbn [Base64.a2b_loop].
    destruct (Ascii.eqb c "=").
    + destruct (2 <=? q)%nat; [|apply IH].
      destruct (4 <=? q + S pads)%nat; [discriminate|apply IH].
    + destruct (Base64.a2b c); [|apply IH].
      destruct q as [|[|[|q]]]; apply IH.
Qed.

Lemma payload_parts_cause p e : payload_parts p = Err e -> decode_cause e.
Proof.
  unfold payload_parts, decode_cause.
  destruct (Py.unpack2 (Py.split1 "," p)) as [[h d]|e1] eqn:E1; cbn [res_bind fst snd].
  2:{ intros [= <-]. unfold Py.unpack2 in E1.
      destruct (Py.split1 "," p) as [|? [|? [|]]]; try discriminate;
        injection E1 as <-; auto. }
  destruct (Py.index (Py.split ":" h) 1) as [a|e2] eqn:E2; cbn [res_bind].
  2:{ intros [= <-]. unfold Py.index in E2.
      destruct (nth_error _ 1); [discriminate|]. injection E2 as <-. auto. }
  destruct (Py.index (Py.split ";" a) 0) as [m|e3] eqn:E3; cbn [res_bind].
  2:{ intros [= <-]. unfold Py.index in E3.
      destruct (nth_error _ 0); [discriminate|]. injection E3 as <-. auto. }
  destruct (Base64.b64decode d) as [bytes|e4] eqn:E4; cbn [res_bind]; [discriminate|].
  intros [= <-]. unfold Base64.b64decode in E4.
  destruct (forallb Base64.is_ascii _).
  - apply a2b_loop_cause in E4 as [-> | ->]; auto 6.
  - injection E4 as <-. auto.
Qed.

(** X4.  A payload the decoder refuses for its content -- one it refuses
    whatever the destination directory and the state -- is refused before
    anything is drawn or written: every call on it leaves the state as it
    was and raises a [ValueError] carrying one and the same cause, which is
    one of five: no comma, no colon in the header, a non-ASCII body, or a
    body whose base64 length or padding is wrong.  (The file system of the
    model accepts every [makedirs] and every write; an [OSError] of lines
    123-126, raised after the name was drawn, is outside this property.) *)
Theorem decoder_failure_is_clean p :
  decoder_fails p ->
  exists cause,
    decode_cause cause
    /\ forall dir w,
         save_base64_file p dir w
         = (Err (ValueError "Error procesando archivo: " cause), w).
Proof.
  intros Hf. destruct (decoder_fails_parts p Hf) as [cause Hp].
  exists cause. split; [now apply (payload_parts_cause p)|].
  intros dir w. rewrite save_base64_file_eq, Hp. reflexivity.
Qed.

Lemma decoder_failure_is_clean_witness :
  exists cause,
    decode_cause cause
    /\ forall dir w,
         save_base64_file "data:image/png;base64,aGVsbG8" dir w
         = (Err (ValueError "Error procesando archivo: " cause), w).
Proof.
  apply decoder_failure_is_clean. apply refused_shape_fails.
  right. exists "data:image/png;base64", "aGVsbG8".
  split; [reflexivity|]. split; [reflexivity|]. right. reflexivity.
Defined.

Lemma split_head c a b :
  has_char c a = false ->
  exists x r, Py.split c b = x :: r /\ Py.split c (a +:+ b) = (a +:+ x) :: r.
Proof.
  intros Ha. induction a as [|y a IH].
  - destruct b as [|z b].
    + eexists _, _. split; reflexivity.
    + change (EmptyString +:+ String z b) with (String z b).
      cbn [Py.split]. destruct (Ascii.eqb z c).
      * eexists _, _. split; reflexivity.
      * destruct (Py.split c b); eexists _, _; split; reflexivity.
  - cbn [has_char] in Ha. apply orb_false_iff in Ha as [Hy Ha].
    destruct (IH Ha) as (x & r & Hb & Hab).
    exists x, r. split; [exact Hb|].
    rewrite append_cons. cbn [Py.split]. rewrite Hy, Hab. reflexivity.
Qed.

(** The parts of a payload [<scheme>:<mime><tail>,<body>], where the tail
    is empty or starts with a semicolon. *)
Lemma payload_parts_header scheme mime tail body :
  has_char "," scheme = false -> has_char ":" scheme = false ->
  has_char "," mime = false -> has_char ":" mime = false ->
  has_char ";" mime = false ->
  has_char "," tail = false ->
  tail = "" \/ (exists t, tail = String ";" t) ->
  payload_parts (scheme +:+ ":" +:+ mime +:+ tail +:+ "," +:+ body)
  = res_bind (Base64.b64decode body) (fun data => Ok (mime, data)).
Proof.
  intros Hsc Hsk Hmc Hmk Hms Htc Ht.
  assert (Hcut : Py.cut "," (scheme +:+ ":" +:+ mime +:+ tail +:+ "," +:+ body)
                 = Some (scheme +:+ ":" +:+ mime +:+ tail, body)).
  { replace (scheme +:+ ":" +:+ mime +:+ tail +:+ "," +:+ body)
      with ((scheme +:+ ":" +:+ mime +:+ tail) +:+ String "," body)
      by (rewrite !append_assoc; reflexivity).
    apply cut_app. rewrite !has_char_app, Hsc, Hmc, Htc. reflexivity. }
  unfold payload_parts, Py.split1. rewrite Hcut.
  cbn [Py.unpack2 res_bind fst snd].
  replace (scheme +:+ ":" +:+ mime +:+ tail)
    with (scheme +:+ String ":" (mime +:+ tail)) by reflexivity.
  rewrite split_app by assumption.
  destruct (split_head ":" mime tail Hmk) as (x & r & Htail & ->).
  cbn [Py.index nth_error res_bind].
  assert (Hx : Py.index (Py.split ";" (mime +:+ x)) 0 = Ok mime).
  { destruct Ht as [-> | [t ->]].
    - cbn [Py.split] in Htail. injection Htail as <- <-.
      replace (mime +:+ "") with mime
        by (clear; induction mime as [|c m IH]; [reflexivity|];
            rewrite append_cons; now f_equal).
      now rewrite split_lacks.
    - cbn [Py.split] in Htail.
      change (Ascii.eqb ";" ":") with false in Htail.
      destruct (Py.split ":" t) as [|x' r']; injection Htail as <- <-;
        now rewrite split_app. }
  rewrite Hx. reflexivity.
Qed.

(** X5.  The decoder reads nothing of the header but the MIME type: the
    scheme name before the colon is not checked, and what follows the
    type (";base64", other parameters, or nothing) is ignored.  The body
    is base64-decoded in every case, and the call does what it does for
    the payload [data:<mime>;base64,<body>]. *)
Theorem decoder_reads_mime_only scheme mime tail body dir w :
  has_char "," scheme = false -> has_char ":" scheme = false ->
  has_char "," mime = false -> has_char ":" mime = false ->
  has_char ";" mime = false ->
  has_char "," tail = false ->
  tail = "" \/ (exists t, tail = String ";" t) ->
  save_base64_file (scheme +:+ ":" +:+ mime +:+ tail +:+ "," +:+ body) dir w
  = save_base64_file ("data:" +:+ mime +:+ ";base64," +:+ body) dir w.
Proof.
  intros Hsc Hsk Hmc Hmk Hms Htc Ht.
  rewrite !save_base64_file_eq.
  rewrite (payload_parts_header scheme mime tail body) by assumption.
  replace ("data:" +:+ mime +:+ ";base64," +:+ body)
    with ("data" +:+ ":" +:+ mime +:+ ";base64" +:+ "," +:+ body)
    by reflexivity.
  rewrite (payload_parts_header "data" mime ";base64" body);
    [reflexivity|reflexivity|reflexivity|assumption..| |]; [reflexivity|].
  right. eexists. reflexivity.
Qed.

Lemma decoder_reads_mime_only_witness :
  save_base64_file "file:image/png;charset=utf-8,aGk=" "./uploads/images" sample_world
  = save_base64_file "data:image/png;base64,aGk=" "./uploads/images" sample_world.
Proof.
  apply (decoder_reads_mime_only "file" "image/png" ";charset=utf-8" "aGk=");
    try reflexivity.
  right. eexists. reflexivity.
Defined.

(** X6.  A payload whose header has no colon -- a bare MIME type, say, in
    place of [data:<mime>] -- is refused with the cause [IndexError], also
    when its body is valid base64, and the state is left as it was. *)
Theorem header_without_colon_refused header body dir w :
  has_char "," header = false -> has_char ":" header = false ->
  save_base64_file (header +:+ "," +:+ body) dir w
  = (Err (ValueError "Error procesando archivo: " IndexError), w).
Proof.
  intros Hc Hk. rewrite save_base64_file_eq.
  unfold payload_parts, Py.split1.
  replace (header +:+ "," +:+ body) with (header +:+ String "," body)
    by reflexivity.
  rewrite (cut_app _ _ _ Hc). cbn [Py.unpack2 res_bind fst snd].
  rewrite (split_lacks _ _ Hk). reflexivity.
Qed.

Lemma header_without_colon_refused_witness :
  save_base64_file "image/png;base64,aGk=" "./uploads/images" sample_world
  = (Err (ValueError "Error procesando archivo: " IndexError), sample_world).
Proof.
  apply (header_without_colon_refused "image/png;base64" "aGk="); reflexivity.
Defined.

(** ** The location of a created report *)

(** X7.  A coordinate that is present in the location map but false in the
    Python sense -- the number 0, 0.0, the empty string, [false] -- is
    stored as null, like a missing one: a report cannot be placed on the
    equator or on the prime meridian. *)
Theorem falsy_coordinate_is_null b w row d v :
  created_row b w row -> Body.ubicacion b = Some d ->
  Py.truthy_val v = false ->
  (d !! "lat" = Some v -> Incidencia.ubicacion_lat row = None)
  /\ (d !! "lng" = Some v -> Incidencia.ubicacion_lng row = None).
Proof.
  intros Hrow Hd Hv.
  apply created_row_inv in Hrow as (media & w1 & dt & _ & _ & _ & ->).
  cbn [new_row Incidencia.ubicacion_lat Incidencia.ubicacion_lng].
  unfold lat_of, lng_of. rewrite Hd.
  split; intros Hk; rewrite (lookup_truthy_dict d _ v Hk);
    unfold dict_get, str_if; rewrite Hk; cbn [default from_option id];
    now rewrite Hv.
Qed.

Lemma falsy_coordinate_is_null_witness :
  Incidencia.ubicacion_lat
    (Incidencia.mk (Some "00000000-0000-4000-8000-000000000000")
       "u1" "c1" "s1" "broken light" "..." None None None
       (Some (Date 2024 1 1)) None (Some "-78.5") (Some "pending")) = None.
Proof.
  refine (proj1 (falsy_coordinate_is_null
                   (with_ubicacion
                      (Some (<[ "lat" := Py.PyInt 0 ]> {[ "lng" := Py.PyStr "-78.5" ]}))
                      sample_body)
                   sample_world _ _ (Py.PyInt 0) _ eq_refl eq_refl) eq_refl).
  created_by_computation.
Defined.

(** X8.  An empty location map is a missing one: the POST of a body with
    the map [{}] does what the POST of the same body without a map does. *)
Theorem empty_map_is_no_map b w :
  post_incidencia (with_ubicacion (Some ∅) b) w
  = post_incidencia (with_ubicacion None b) w.
Proof. rewrite !post_incidencia_eq. reflexivity. Qed.

(** ** Deletion *)

Lemma filter_keeps_all {A} (f : A -> bool) l :
  existsb f l = false -> List.filter (fun x => negb (f x)) l = l.
Proof.
  induction l as [|x l IH]; cbn [existsb List.filter]; [reflexivity|].
  intros H. apply orb_false_iff in H as [Hx Hl].
  rewrite Hx, (IH Hl). reflexivity.
Qed.

Lemma existsb_filter_out {A} (f : A -> bool) l :
  existsb f (List.filter (fun x => negb (f x)) l) = false.
Proof.
  induction l as [|x l IH]; cbn [existsb List.filter]; [reflexivity|].
  destruct (f x) eqn:Hx; cbn [negb existsb]; [exact IH|].
  now rewrite Hx, IH.
Qed.

(** X9.  Deleting the id of a stored report succeeds: afterwards no report
    has that id, the reports with another id are all there in their order,
    and the file system is untouched, so the media files of the deleted
    report stay on disk.  Deleting an id no report has gives the not-found
    error 404 and changes nothing. *)
Theorem delete_removes_report pk w :
  (existsb (Incidencia.has_id pk) (incidencias w) = true ->
   exists msg w',
     delete_ pk w = (Ok msg, w')
     /\ existsb (Incidencia.has_id pk) (incidencias w') = false
     /\ incidencias w'
        = List.filter (fun row => negb (Incidencia.has_id pk row)) (incidencias w)
     /\ files w' = files w /\ dirs w' = dirs w /\ drawn w' = drawn w)
  /\ (existsb (Incidencia.has_id pk) (incidencias w) = false ->
      delete_ pk w
      = (Err (HTTPException 404 (Text "Incidencia no encontrada")), w)).
Proof.
  rewrite delete_eq. split; intros ->; [|reflexivity].
  eexists _, _. split; [reflexivity|].
  cbn [incidencias files dirs drawn set_incidencias].
  split; [apply existsb_filter_out|]. repeat split.
Qed.

Lemma delete_removes_report_witness :
  (exists msg w',
     delete_ "r1" one_report = (Ok msg, w')
     /\ existsb (Incidencia.has_id "r1") (incidencias w') = false
     /\ incidencias w'
        = List.filter (fun row => negb (Incidencia.has_id "r1" row))
            (incidencias one_report)
     /\ files w' = files one_report /\ dirs w' = dirs one_report
     /\ drawn w' = drawn one_report)
  /\ delete_ "r2" one_report
     = (Err (HTTPException 404 (Text "Incidencia no encontrada")), one_report).
Proof.
  split.
  - apply (delete_removes_report "r1" one_report). reflexivity.
  - apply (delete_removes_report "r2" one_report). reflexivity.
Defined.

(** X10.  A deleted report is gone for the later operations: after a
    deletion that succeeded, a second deletion of the same id and a status
    update of that id both give the not-found error 404 and change
    nothing. *)
Theorem deleted_is_not_found pk w msg w1 :
  delete_ pk w = (Ok msg, w1) ->
  delete_ pk w1 = (Err (HTTPException 404 (Text "Incidencia no encontrada")), w1)
  /\ forall upd,
       patch_estado pk upd w1
       = (Err (HTTPException 404 (Text "Incidencia no encontrada")), w1).
Proof.
  rewrite delete_eq.
  destruct (existsb _ (incidencias w)); [|discriminate].
  intros [= _ <-]. split; [|intros upd].
  - rewrite delete_eq. cbn [incidencias set_incidencias].
    now rewrite existsb_filter_out.
  - rewrite patch_estado_eq. cbn [incidencias set_incidencias].
    now rewrite existsb_filter_out.
Qed.

Lemma deleted_is_not_found_witness :
  delete_ "r1" (snd (delete_ "r1" one_report))
  = (Err (HTTPException 404 (Text "Incidencia no encontrada")),
     snd (delete_ "r1" one_report)).
Proof.
  refine (proj1 (deleted_is_not_found "r1" one_report
                   "Incidencia eliminada correctamente" _ _)).
  vm_compute. reflexivity.
Defined.

(** ** Operations in sequence *)

Lemma post_ok_inv b w c w' :
  post_incidencia b w = (Ok c, w') ->
  exists pk row,
    created_id c = Some pk
    /\ Incidencia.has_id pk row = true
    /\ Incidencia.status row = Some "pending"
    /\ existsb (Incidencia.has_id pk) (incidencias w) = false
    /\ incidencias w' = incidencias w ++ [row]
    /\ created_row b w row.
Proof.
  intros Hp. pose proof Hp as Hp'. rewrite post_incidencia_eq in Hp'.
  destruct (save_media b w) as [[media|e] w1] eqn:Hm; [|discriminate].
  pose proof (save_media_frame b w _ _ Hm) as (Ht & _).
  cbv zeta in Hp'.
  destruct (fecha_of b w) as [d|] eqn:Hd; [|discriminate].
  destruct (existsb _ (incidencias w1)) eqn:Hex; [discriminate|].
  injection Hp' as <- <-.
  exists (next_uuid w1), (new_row b (Some d) (next_uuid w1) media).
  split; [reflexivity|]. split.
  { unfold Incidencia.has_id. cbn [new_row Incidencia.id_incidencia].
    apply String.eqb_refl. }
  split; [reflexivity|].
  split; [now rewrite <- Ht|].
  split; [cbn [incidencias set_incidencias]; now rewrite Ht|].
  now apply (created_row_intro b w media w1 d).
Qed.

Lemma filter_app_last {A} (f : A -> bool) l x :
  List.filter f (l ++ [x]) = List.filter f l ++ (if f x then [x] else []).
Proof. now rewrite List.filter_app. Qed.

(** X11.  Creation then deletion: deleting the id a POST returned succeeds
    and gives back the table the POST started from; the files the POST
    wrote are still there. *)
Theorem post_then_delete b w c w1 :
  post_incidencia b w = (Ok c, w1) ->
  exists pk msg w2,
    created_id c = Some pk
    /\ delete_ pk w1 = (Ok msg, w2)
    /\ incidencias w2 = incidencias w
    /\ files w2 = files w1.
Proof.
  intros Hp.
  destruct (post_ok_inv b w c w1 Hp) as (pk & row & Hid & Hrow & _ & Hex & Ht & _).
  exists pk. rewrite delete_eq, Ht, existsb_app, Hex.
  cbn [existsb orb]. rewrite Hrow. cbn [orb].
  eexists _, _. split; [exact Hid|]. split; [reflexivity|].
  cbn [incidencias files set_incidencias]. split; [|reflexivity].
  rewrite filter_app_last, Hrow. cbn [negb]. rewrite app_nil_r.
  now apply filter_keeps_all.
Qed.

Lemma post_then_delete_witness :
  exists pk msg w2,
    Some "00000000-0000-4000-8000-000000000000" = Some pk
    /\ delete_ pk (snd (post_incidencia sample_body sample_world)) = (Ok msg, w2)
    /\ incidencias w2 = incidencias sample_world
    /\ files w2 = files (snd (post_incidencia sample_body sample_world)).
Proof.
  apply (post_then_delete sample_body sample_world
           (mkCreated "Incidencia creada correctamente"
              (Some "00000000-0000-4000-8000-000000000000"))).
  vm_compute. reflexivity.
Defined.

Lemma map_overwrite_others pk s l :
  existsb (Incidencia.has_id pk) l = false -> map (overwrite_status pk s) l = l.
Proof.
  induction l as [|x l IH]; cbn [existsb map]; [reflexivity|].
  intros H. apply orb_false_iff in H as [Hx Hl].
  unfold overwrite_status at 1. now rewrite Hx, (IH Hl).
Qed.

(** X12.  Creation then status update: updating the status of the id a
    POST returned succeeds, and the table is then the table the POST
    started from followed by the created report with the new status in
    place of "pending". *)
Theorem post_then_update b w c w1 upd :
  post_incidencia b w = (Ok c, w1) ->
  exists pk row msg w2,
    created_id c = Some pk
    /\ created_row b w row
    /\ patch_estado pk upd w1 = (Ok msg, w2)
    /\ incidencias w2
       = incidencias w
         ++ [Incidencia.set_status (Some (EstadoUpdate.status upd)) row].
Proof.
  intros Hp.
  destruct (post_ok_inv b w c w1 Hp) as (pk & row & Hid & Hrow & _ & Hex & Ht & Hc).
  exists pk, row. rewrite patch_estado_eq, Ht, existsb_app, Hex.
  cbn [existsb orb]. rewrite Hrow. cbn [orb].
  eexists _, _. split; [exact Hid|]. split; [exact Hc|]. split; [reflexivity|].
  cbn [incidencias set_incidencias].
  rewrite List.map_app, (map_overwrite_others pk _ _ Hex). cbn [map].
  unfold overwrite_status. now rewrite Hrow.
Qed.

Lemma post_then_update_witness :
  exists pk row msg w2,
    Some "00000000-0000-4000-8000-000000000000" = Some pk
    /\ created_row sample_body sample_world row
    /\ patch_estado pk (EstadoUpdate.mk "resolved")
         (snd (post_incidencia sample_body sample_world)) = (Ok msg, w2)
    /\ incidencias w2
       = incidencias sample_world ++ [Incidencia.set_status (Some "resolved") row].
Proof.
  apply (post_then_update sample_body sample_world
           (mkCreated "Incidencia creada correctamente"
              (Some "00000000-0000-4000-8000-000000000000"))).
  vm_compute. reflexivity.
Defined.

Lemma existsb_overwrite pk pk' s l :
  existsb (Incidencia.has_id pk) (map (overwrite_status pk' s) l)
  = existsb (Incidencia.has_id pk) l.
Proof.
  induction l as [|x l IH]; cbn [map existsb]; [reflexivity|].
  rewrite IH. f_equal. unfold overwrite_status.
  destruct (Incidencia.has_id pk' x); reflexivity.
Qed.

(** X20.  Of two status updates of the same id the last one wins: the
    table after both is the table after the second alone.  In particular
    repeating an update changes nothing more. *)
Theorem last_update_wins pk first second w :
  incidencias (snd (patch_estado pk second (snd (patch_estado pk first w))))
  = incidencias (snd (patch_estado pk second w)).
Proof.
  rewrite (patch_estado_eq pk first w).
  destruct (existsb (Incidencia.has_id pk) (incidencias w)) eqn:Hex;
    cbn [snd]; [|reflexivity].
  rewrite !patch_estado_eq. cbn [incidencias set_incidencias].
  rewrite existsb_overwrite, Hex. cbn [snd incidencias set_incidencias].
  rewrite List.map_map. apply List.map_ext. intros row.
  unfold overwrite_status at 2. destruct (Incidencia.has_id pk row) eqn:Hrow.
  - unfold overwrite_status.
    replace (Incidencia.has_id pk (Incidencia.set_status _ row)) with true
      by (symmetry; exact Hrow).
    now rewrite Hrow.
  - reflexivity.
Qed.

(** ** Invariants of the table *)

Lemma in_ids_existsb pk l :
  In (Some pk) (map Incidencia.id_incidencia l) ->
  existsb (Incidencia.has_id pk) l = true.
Proof.
  induction l as [|x l IH]; cbn [map In existsb]; [tauto|].
  intros [Hx | Hl].
  - unfold Incidencia.has_id. rewrite Hx, String.eqb_refl. reflexivity.
  - rewrite (IH Hl). apply orb_true_r.
Qed.

Lemma ids_overwrite pk s l :
  map Incidencia.id_incidencia (map (overwrite_status pk s) l)
  = map Incidencia.id_incidencia l.
Proof.
  induction l as [|x l IH]; cbn [map]; [reflexivity|].
  rewrite IH. unfold overwrite_status.
  destruct (Incidencia.has_id pk x); reflexivity.
Qed.

Lemma in_ids_filter (f : Incidencia.t -> bool) i l :
  In i (map Incidencia.id_incidencia (List.filter f l)) ->
  In i (map Incidencia.id_incidencia l).
Proof.
  induction l as [|x l IH]; cbn [List.filter map In]; [tauto|].
  destruct (f x); cbn [map In]; tauto.
Qed.

Lemma nodup_ids_filter (f : Incidencia.t -> bool) l :
  List.NoDup (map Incidencia.id_incidencia l) ->
  List.NoDup (map Incidencia.id_incidencia (List.filter f l)).
Proof.
  induction l as [|x l IH]; cbn [List.filter map]; [trivial|].
  intros H. inversion H as [|? ? Hnotin Hnd]; subst.
  destruct (f x); cbn [map]; [|now apply IH].
  constructor; [|now apply IH].
  intros Hin. apply Hnotin. now apply (in_ids_filter f).
Qed.

Lemma nodup_ids_snoc l row pk :
  List.NoDup (map Incidencia.id_incidencia l) ->
  Incidencia.id_incidencia row = Some pk ->
  existsb (Incidencia.has_id pk) l = false ->
  List.NoDup (map Incidencia.id_incidencia (l ++ [row])).
Proof.
  intros Hnd Hid Hex. induction l as [|x l IH]; cbn [app map].
  - constructor; [intros []|constructor].
  - cbn [map existsb] in *. apply orb_false_iff in Hex as [Hx Hl].
    inversion Hnd as [|? ? Hnotin Hnd']; subst.
    constructor; [|now apply IH].
    rewrite List.map_app, List.in_app_iff. cbn [map In]. intros [Hin | [Heq | []]].
    + now apply Hnotin.
    + rewrite Hid in Heq. unfold Incidencia.has_id in Hx.
      rewrite <- Heq, String.eqb_refl in Hx. discriminate.
Qed.

(** X13.  The ids of the table stay unique: when no two stored reports
    share an id, that is still so after any POST, listing, status update
    or deletion. *)
Theorem ids_stay_unique w :
  ids_unique w ->
  (forall b, ids_unique (snd (post_incidencia b w)))
  /\ (forall base_url f, ids_unique (snd (get_incidencias base_url f w)))
  /\ (forall pk upd, ids_unique (snd (patch_estado pk upd w)))
  /\ (forall pk, ids_unique (snd (delete_ pk w))).
Proof.
  intros Hw. unfold ids_unique in *. repeat split.
  - intros b. destruct (post_table b w) as [-> | (row & _ & Htab)]; [exact Hw|].
    destruct (post_incidencia b w) as [[c|e] w'] eqn:Hp; cbn [snd] in *.
    + destruct (post_ok_inv b w c w' Hp) as (pk & row' & _ & Hid & _ & Hex & Ht & _).
      rewrite Ht. apply (nodup_ids_snoc _ row' pk); [exact Hw| |exact Hex].
      now apply has_id_eq.
    + exfalso. rewrite post_incidencia_eq in Hp.
      destruct (save_media b w) as [[media|e'] w1] eqn:Hm;
        apply save_media_frame in Hm as (Ht & _).
      * cbv zeta in Hp. destruct (fecha_of b w).
        -- destruct (existsb _ (incidencias w1)); [|discriminate].
           injection Hp as _ <-. cbn [incidencias set_drawn] in Htab.
           rewrite Ht in Htab. apply (f_equal (@length _)) in Htab.
           rewrite length_app in Htab. cbn [length] in Htab. lia.
        -- injection Hp as _ <-. cbn [incidencias set_drawn] in Htab.
           rewrite Ht in Htab. apply (f_equal (@length _)) in Htab.
           rewrite length_app in Htab. cbn [length] in Htab. lia.
      * injection Hp as _ <-. rewrite Ht in Htab.
        apply (f_equal (@length _)) in Htab.
        rewrite length_app in Htab. cbn [length] in Htab. lia.
  - intros base_url f. now rewrite get_incidencias_state.
  - intros pk upd. rewrite patch_estado_eq.
    destruct (existsb _ (incidencias w)); [|exact Hw].
    cbn [snd incidencias set_incidencias]. now rewrite ids_overwrite.
  - intros pk. rewrite delete_eq.
    destruct (existsb _ (incidencias w)); [|exact Hw].
    cbn [snd incidencias set_incidencias]. now apply nodup_ids_filter.
Qed.

Lemma ids_stay_unique_witness :
  ids_unique (snd (post_incidencia sample_body one_report)).
Proof.
  assert (H : ids_unique one_report).
  { unfold ids_unique. cbn. constructor; [intros []|constructor]. }
  exact (proj1 (ids_stay_unique one_report H) sample_body).
Defined.

Lemma filter_one_less pk l :
  List.NoDup (map Incidencia.id_incidencia l) ->
  existsb (Incidencia.has_id pk) l = true ->
  S (length (List.filter (fun row => negb (Incidencia.has_id pk row)) l)) = length l.
Proof.
  induction l as [|x l IH]; cbn [existsb List.filter map length]; [discriminate|].
  intros Hnd Hex. inversion Hnd as [|? ? Hnotin Hnd']; subst.
  destruct (Incidencia.has_id pk x) eqn:Hx; cbn [negb length].
  - f_equal. f_equal. apply filter_keeps_all.
    destruct (existsb (Incidencia.has_id pk) l) eqn:Hl; [|reflexivity].
    exfalso. apply Hnotin. rewrite (has_id_eq pk x Hx).
    apply existsb_exists in Hl as (y & Hy & Hidy).
    rewrite <- (has_id_eq pk y Hidy). now apply List.in_map.
  - f_equal. now apply IH.
Qed.

(** X14.  When the ids of the table are unique, deleting a stored id
    removes exactly one report: the table is one report shorter. *)
Theorem delete_removes_exactly_one pk w :
  ids_unique w ->
  existsb (Incidencia.has_id pk) (incidencias w) = true ->
  S (length (incidencias (snd (delete_ pk w)))) = length (incidencias w).
Proof.
  intros Hu Hex. rewrite delete_eq, Hex. cbn [snd incidencias set_incidencias].
  now apply filter_one_less.
Qed.

Lemma delete_removes_exactly_one_witness :
  S (length (incidencias (snd (delete_ "r1" one_report))))
  = length (incidencias one_report).
Proof.
  apply delete_removes_exactly_one; [|reflexivity].
  unfold ids_unique. cbn. constructor; [intros []|constructor].
Defined.

Lemma stored_overwrite pk s row : stored row -> stored (overwrite_status pk s row).
Proof.
  unfold overwrite_status. destruct (Incidencia.has_id pk row); [|trivial].
  intros (Hi & Hd & _). repeat split; try assumption. eexists. reflexivity.
Qed.

(** X15.  Every stored report keeps an id, a date and a status: a table in
    which that holds of every report still has it after any POST, listing,
    status update or deletion.  (The model lets a null date in; the table
    does not.) *)
Theorem rows_stay_stored w :
  all_stored w ->
  (forall b, all_stored (snd (post_incidencia b w)))
  /\ (forall base_url f, all_stored (snd (get_incidencias base_url f w)))
  /\ (forall pk upd, all_stored (snd (patch_estado pk upd w)))
  /\ (forall pk, all_stored (snd (delete_ pk w))).
Proof.
  intros Hw. unfold all_stored in *. repeat split.
  - intros b. destruct (post_table b w) as [-> | (row & Hrow & ->)]; [exact Hw|].
    apply Forall_app. split; [exact Hw|]. constructor; [|constructor].
    apply created_row_inv in Hrow as (media & w1 & d & _ & _ & _ & ->).
    repeat split; eexists; reflexivity.
  - intros base_url f. now rewrite get_incidencias_state.
  - intros pk upd. rewrite patch_estado_eq.
    destruct (existsb _ (incidencias w)); [|exact Hw].
    cbn [snd incidencias set_incidencias]. apply List.Forall_map.
    eapply List.Forall_impl; [|exact Hw]. intros row. apply stored_overwrite.
  - intros pk. rewrite delete_eq.
    destruct (existsb _ (incidencias w)); [|exact Hw].
    cbn [snd incidencias set_incidencias].
    apply List.Forall_forall. intros row Hin.
    apply List.filter_In in Hin as [Hin _].
    rewrite List.Forall_forall in Hw. now apply Hw.
Qed.

Lemma rows_stay_stored_witness :
  all_stored (snd (patch_estado "r1" (EstadoUpdate.mk "") one_report)).
Proof.
  assert (H : all_stored one_report).
  { repeat constructor; eexists; reflexivity. }
  destruct (rows_stay_stored one_report H) as (_ & _ & Hp & _). apply Hp.
Defined.

(** ** Listing *)

Lemma to_response_shows base_url row v :
  to_response base_url row = Ok v -> shows base_url row v.
Proof.
  unfold to_response.
  destruct (Incidencia.fecha_emision row) as [d|]; cbn [res_bind]; [|discriminate].
  destruct (response_ubicacion _ _) as [u|e]; cbn [res_bind]; [|discriminate].
  destruct (Incidencia.id_incidencia row) as [i|] eqn:Hi; [|discriminate].
  destruct (Incidencia.status row) as [s|] eqn:Hs; [|discriminate].
  intros [= <-]. repeat split; assumption.
Qed.

Lemma comprehension_ok {A B} (f : A -> res B) l ys :
  comprehension f l = Ok ys -> Forall2 (fun x y => f x = Ok y) l ys.
Proof.
  revert ys. induction l as [|x l IH]; cbn [comprehension]; intros ys.
  - intros [= <-]. constructor.
  - destruct (f x) as [y|e] eqn:Hx; cbn [res_bind]; [|discriminate].
    destruct (comprehension f l) as [ys'|e]; cbn [res_bind]; [|discriminate].
    intros [= <-]. constructor; [exact Hx|now apply IH].
Qed.

Lemma get_incidencias_eq base_url f w :
  get_incidencias base_url f w
  = (res_bind (select_incidencias f w) (comprehension (to_response base_url)), w).
Proof.
  unfold get_incidencias, with_db, list_incidencias, bind, lift_res.
  cbn [world]. destruct (select_incidencias f w); reflexivity.
Qed.

(** X16.  A listing without filter that succeeds returns one view for each
    report of the table, in the order of the table, and each view shows
    its report: the same id, reporter, classification, text and status,
    and each media reference as an address under the base address. *)
Theorem listing_shows_reports base_url w vs w' :
  get_incidencias base_url None w = (Ok vs, w') ->
  w' = w /\ Forall2 (shows base_url) (incidencias w) vs.
Proof.
  rewrite get_incidencias_eq. cbn [select_incidencias res_bind].
  intros [= H <-]. split; [reflexivity|].
  apply comprehension_ok in H.
  eapply Forall2_impl; [exact H|]. intros row v. apply to_response_shows.
Qed.

Lemma listing_shows_reports_witness :
  exists v, Forall2 (shows "http://host/") (incidencias one_report) [v].
Proof.
  eexists.
  refine (proj2 (listing_shows_reports "http://host/" one_report _ one_report _)).
  vm_compute. reflexivity.
Defined.

Lemma to_response_readable base_url row :
  stored row -> coordinates_readable row = true ->
  exists v, to_response base_url row = Ok v.
Proof.
  intros ([i Hi] & [d Hd] & [s Hs]) Hr.
  unfold to_response, response_ubicacion. rewrite Hi, Hd, Hs. cbn [res_bind].
  unfold coordinates_readable, has_coordinates in Hr.
  destruct (Py.truthy _ && Py.truthy _); cbn [res_bind]; [|eauto].
  unfold float_of.
  destruct (Py.float (default "" (Incidencia.ubicacion_lat row))); [|discriminate].
  destruct (Py.float (default "" (Incidencia.ubicacion_lng row))); [|discriminate].
  cbn [res_bind]. eauto.
Qed.

Lemma to_response_unreadable base_url row :
  stored row -> coordinates_readable row = false ->
  exists s, to_response base_url row = Err (FloatError s).
Proof.
  intros ([i Hi] & [d Hd] & [s Hs]) Hr.
  unfold to_response, response_ubicacion. rewrite Hi, Hd, Hs. cbn [res_bind].
  unfold coordinates_readable, has_coordinates in Hr.
  destruct (Py.truthy _ && Py.truthy _); [|discriminate].
  unfold float_of.
  destruct (Py.float (default "" (Incidencia.ubicacion_lat row))); cbn [res_bind];
    [|eauto].
  destruct (Py.float (default "" (Incidencia.ubicacion_lng row))); [discriminate|].
  cbn [res_bind]. eauto.
Qed.

(** X17.  On a table of stored reports the listing without filter succeeds
    exactly when the coordinates of every report are readable (one of the
    two missing or empty, or both parsing as floats); one report whose two
    coordinates are present and do not both parse makes the whole listing
    raise the error of [float]. *)
Theorem listing_succeeds_iff_readable base_url w :
  all_stored w ->
  (forallb coordinates_readable (incidencias w) = true ->
   exists vs, get_incidencias base_url None w = (Ok vs, w))
  /\ (forallb coordinates_readable (incidencias w) = false ->
      exists s, get_incidencias base_url None w = (Err (FloatError s), w)).
Proof.
  intros Hw. rewrite get_incidencias_eq. cbn [select_incidencias res_bind].
  unfold all_stored in Hw.
  induction (incidencias w) as [|row l IH]; cbn [forallb comprehension].
  - split; [eauto|discriminate].
  - inversion Hw as [|? ? Hrow Hl]; subst. destruct (IH Hl) as [IHok IHerr].
    destruct (coordinates_readable row) eqn:Hr; cbn [andb].
    + destruct (to_response_readable base_url row Hrow Hr) as [v ->].
      cbn [res_bind]. split; intros Hall.
      * destruct (IHok Hall) as [vs Hvs]. injection Hvs as ->.
        cbn [res_bind]. eauto.
      * destruct (IHerr Hall) as [s Hs]. injection Hs as ->.
        cbn [res_bind]. eauto.
    + destruct (to_response_unreadable base_url row Hrow Hr) as [s ->].
      cbn [res_bind]. split; [discriminate|eauto].
Qed.

Lemma listing_succeeds_iff_readable_witness :
  exists vs, get_incidencias "http://host/" None one_report = (Ok vs, one_report).
Proof.
  assert (H : all_stored one_report).
  { repeat constructor; eexists; reflexivity. }
  apply (proj1 (listing_succeeds_iff_readable "http://host/" one_report H)).
  reflexivity.
Defined.





(** ** The address of a media file *)

Lemma has_char_hex k n acc :
  has_char "/" (Uuid.hex k n acc) = has_char "/" acc.
Proof.
  revert n acc. induction k as [|k IH]; intros n acc; cbn [Uuid.hex]; [reflexivity|].
  rewrite IH. cbn [has_char]. now rewrite hex_digit_not_slash.
Qed.

Lemma has_char_substring c s n m :
  has_char c s = false -> has_char c (substring n m s) = false.
Proof.
  revert n m. induction s as [|a s IH]; intros n m H.
  - destruct n, m; reflexivity.
  - cbn [has_char] in H. apply orb_false_iff in H as [Ha Hs].
    destruct n as [|n]; destruct m as [|m]; cbn [substring has_char];
      try reflexivity; try (now apply IH).
    now rewrite Ha, IH.
Qed.

Lemma uuid_no_slash u : has_char "/" (Uuid.to_str u) = false.
Proof.
  unfold Uuid.to_str.
  assert (H : has_char "/" (Uuid.hex 32 u EmptyString) = false)
    by now rewrite has_char_hex.
  rewrite !has_char_app, !(has_char_substring _ _ _ _ H). reflexivity.
Qed.

Lemma basename_after_slash dir name :
  has_char "/" name = false ->
  OsPath.basename (dir +:+ String "/" name) = name.
Proof.
  intros Hn.
  assert (Hbase : OsPath.basename name = name).
  { destruct name as [|c name]; [reflexivity|].
    cbn [has_char] in Hn. apply orb_false_iff in Hn as [Hc Hn].
    cbn [OsPath.basename]. rewrite Hc.
    apply cut_none_iff in Hn. now rewrite Hn. }
  induction dir as [|c dir IH].
  - change (EmptyString +:+ String "/" name) with (String "/" name).
    cbn [OsPath.basename]. now rewrite Ascii.eqb_refl.
  - rewrite append_cons. cbn [OsPath.basename].
    destruct (Ascii.eqb c "/"); [exact IH|].
    destruct (Py.cut "/" (dir +:+ String "/" name)) eqn:Hcut; [exact IH|].
    apply cut_none_iff in Hcut. rewrite has_char_app in Hcut.
    cbn [has_char] in Hcut. rewrite Ascii.eqb_refl, orb_true_r in Hcut.
    discriminate.
Qed.

(** X19.  The address a listing gives for an image is not the place of the
    file.  For a report created with a well-formed image, the stored
    reference is the path "./uploads/images/<name>", under the directory
    of the category, while the view gives the address
    "<base>uploads/<name>", without the directory: only the base name of
    the path is kept. *)
Theorem image_address_drops_directory mime body b w row base_url v :
  has_char "," mime = false -> has_char ":" mime = false ->
  has_char ";" mime = false ->
  is_ok (Base64.b64decode body) = true ->
  has_char "/" (extension_of w mime) = false ->
  Body.imagen b = Some ("data:" +:+ mime +:+ ";base64," +:+ body) ->
  created_row b w row ->
  to_response base_url row = Ok v ->
  let name := next_uuid w +:+ extension_of w mime in
  Incidencia.imagen row = Some ("./uploads/images/" +:+ name)
  /\ IncidenciaResponse.imagen v = Some (base_url +:+ "uploads/" +:+ name).
Proof.
  intros Hc Hk Hs Hb He Hi Hrow Hv name.
  destruct (Base64.b64decode body) as [data|] eqn:Hd; [clear Hb|discriminate].
  assert (Himg : Incidencia.imagen row = Some ("./uploads/images/" +:+ name)).
  { apply created_row_inv in Hrow as (media & w1 & d & Hm & _ & _ & ->).
    rewrite save_media_eq, Hi, save_if_some in Hm by discriminate.
    rewrite (save_data_uri mime body data _ w Hc Hk Hs Hd) in Hm.
    rewrite (join_category "images") in Hm
      by (apply file_name_no_slash || reflexivity).
    cbv beta iota in Hm.
    destruct (save_if (Body.video b) "videos" _) as [[vd|?] w2]; [|discriminate].
    destruct (save_if (Body.audio b) "audios" _) as [[au|?] w3]; [|discriminate].
    injection Hm as <- _. reflexivity. }
  split; [exact Himg|].
  apply to_response_shows in Hv. destruct Hv as (_&_&_&_&_&_&_& -> &_).
  rewrite Himg. unfold media_url. cbn [Py.truthy Py.truthy_str].
  change (default "" (Some ?x)) with x.
  change ("./uploads/images/" +:+ name) with ("./uploads/images" +:+ String "/" name).
  rewrite basename_after_slash; [reflexivity|]. unfold name, next_uuid.
  now rewrite has_char_app, uuid_no_slash, He.
Qed.

Lemma image_address_drops_directory_witness :
  exists row v,
    created_row (with_media (Some "data:image/png;base64,aGk=") None None sample_body)
      sample_world row
    /\ to_response "http://host/" row = Ok v
    /\ Incidencia.imagen row
       = Some "./uploads/images/00000000-0000-4000-8000-000000000000.png"
    /\ IncidenciaResponse.imagen v
       = Some "http://host/uploads/00000000-0000-4000-8000-000000000000.png".
Proof.
  eexists _, _. split; [created_by_computation|].
  split; [vm_compute; reflexivity|].
  refine (image_address_drops_directory "image/png" "aGk="
            (with_media (Some "data:image/png;base64,aGk=") None None sample_body)
            sample_world _ "http://host/" _
            eq_refl eq_refl eq_refl eq_refl eq_refl eq_refl _ _).
  - created_by_computation.
  - vm_compute. reflexivity.
Defined.
